(** * allmark: the RTF conversion handler (modules/web/server/handler/rtf.go)

    A shallow embedding of the handler that serves a document as an RTF
    download: suffix stripping and route parsing, the configuration gates,
    the model lookup, template rendering, the converter invocation, the
    derived download file name, and the general process primitive
    [execute] / [getCmd] / [redirectCommandIO]. *)

From Stdlib Require Import String Ascii List ZArith Bool Arith Lia.
Import ListNotations.
Local Open Scope string_scope.

(** ** Go values *)

(** A Go [error] value, identified with the text of its [Error()] method. *)
Definition error := string.

(** A Go result pair [(T, error)]: either the value or a non-nil error. *)
Inductive result (A : Type) : Type :=
| Ok (a : A)
| Err (e : error).
Arguments Ok {A} a.
Arguments Err {A} e.

(** ** The parts of Go's package [strings] the handler calls *)

Module strings.

(** [len(s) >= len(suffix) && s[len(s)-len(suffix):] == suffix] *)
Definition HasSuffix (s suffix : string) : bool :=
  let n := String.length s in
  let m := String.length suffix in
  (m <=? n)%nat && String.eqb (substring (n - m) m s) suffix.

(** [if HasSuffix(s, suffix) { return s[:len(s)-len(suffix)] }; return s] *)
Definition TrimSuffix (s suffix : string) : string :=
  if HasSuffix s suffix
  then substring 0 (String.length s - String.length suffix) s
  else s.

(** [Split(s, sep)] for a separator of one byte: the substrings between
    the occurrences of [sep]; one more component than occurrences. *)
Fixpoint Split (s : string) (sep : ascii) : list string :=
  match s with
  | EmptyString => [EmptyString]
  | String c rest =>
      if Ascii.eqb c sep then EmptyString :: Split rest sep
      else match Split rest sep with
           | [] => [String c EmptyString]
           | w :: ws => String c w :: ws
           end
  end.

End strings.

(** The double quote character, for [fmt.Sprintf] formats that contain it. *)
Definition dquote : string := String (ascii_of_nat 34) EmptyString.

(** ** Package [route] (allmark.io/modules/common/route), as an interface

    The handler uses a route only through [NewFromRequest], [Value],
    [LastComponentName] and its [String()] method (what [%q] prints in the
    log messages; [RouteString] here, since [String] is the constructor of
    Rocq's strings). *)

Module route.

Class Package : Type := {
  Route : Type;
  NewFromRequest : string -> result Route;
  Value : Route -> string;
  LastComponentName : Route -> string;
  RouteString : Route -> string
}.

End route.

(** ** Package [viewmodel]: the conversion model, with the fields read here *)

Module viewmodel.

Record ConversionModel : Type := {
  Route : string;
  Title : string;
  Level : Z;
  Type_ : string
}.

End viewmodel.

(** ** Package [config]: [config.Conversion.Rtf.Enabled] and [.Tool] *)

Module config.

Record RtfConversion : Type := { Enabled : bool; Tool : string }.
Record Conversion : Type := { Rtf : RtfConversion }.
Record Config : Type := { Conversion_ : Conversion }.

End config.

(** ** Packages [os] and [os/exec] *)

Module os.

Inductive File : Type :=
| Stdin
| Stdout
| Stderr
| PipeReader (id : nat)
| PipeWriter (id : nat).

End os.

Module filepath.

(** [path] without its trailing slashes. *)
Fixpoint stripTrailingSlashes (path : string) : string :=
  match path with
  | EmptyString => EmptyString
  | String c rest =>
      let rest' := stripTrailingSlashes rest in
      if Ascii.eqb c "/"%char && String.eqb rest' "" then EmptyString
      else String c rest'
  end.

(** [filepath.Base] on Unix: the last element of the path, trailing
    slashes removed; [.] for the empty path and [/] for slashes only. *)
Definition Base (path : string) : string :=
  if String.eqb path "" then "."
  else
    let path := stripTrailingSlashes path in
    let path := last (strings.Split path "/"%char) "" in
    if String.eqb path "" then "/" else path.

End filepath.

Module exec.

(** [lookPathErr] is the unexported field in which [Command] keeps the
    error of the lookup; [Start] returns it. *)
Record Cmd : Type := {
  Path : string;
  Args : list string;
  Dir : string;
  Stdin : option os.File;
  Stdout : option os.File;
  Stderr : option os.File;
  lookPathErr : option error
}.

Definition setPath (c : Cmd) (p : string) : Cmd :=
  {| Path := p; Args := Args c; Dir := Dir c;
     Stdin := Stdin c; Stdout := Stdout c; Stderr := Stderr c;
     lookPathErr := lookPathErr c |}.

Definition setLookPathErr (c : Cmd) (e : error) : Cmd :=
  {| Path := Path c; Args := Args c; Dir := Dir c;
     Stdin := Stdin c; Stdout := Stdout c; Stderr := Stderr c;
     lookPathErr := Some e |}.

Definition setDir (c : Cmd) (d : string) : Cmd :=
  {| Path := Path c; Args := Args c; Dir := d;
     Stdin := Stdin c; Stdout := Stdout c; Stderr := Stderr c;
     lookPathErr := lookPathErr c |}.

Definition setStdin (c : Cmd) (f : os.File) : Cmd :=
  {| Path := Path c; Args := Args c; Dir := Dir c;
     Stdin := Some f; Stdout := Stdout c; Stderr := Stderr c;
     lookPathErr := lookPathErr c |}.

Definition setStdout (c : Cmd) (f : os.File) : Cmd :=
  {| Path := Path c; Args := Args c; Dir := Dir c;
     Stdin := Stdin c; Stdout := Some f; Stderr := Stderr c;
     lookPathErr := lookPathErr c |}.

Definition setStderr (c : Cmd) (f : os.File) : Cmd :=
  {| Path := Path c; Args := Args c; Dir := Dir c;
     Stdin := Stdin c; Stdout := Stdout c; Stderr := Some f;
     lookPathErr := lookPathErr c |}.

(** What the operating system answers: where [LookPath] finds an
    executable, whether a pipe can be created, whether the child starts,
    and how it exits ([None] is Go's [nil]). *)
Class System : Type := {
  LookPath : string -> result string;
  Pipe : nat -> option error;
  Start : Cmd -> option error;
  Wait : Cmd -> option error
}.

(** [exec.Command(name, arg...)]: [Args] holds the name first; a name that
    is its own base name (no directory part) is looked up at once, and
    [Path] is where it was found, or the name with the error kept when it
    was not. *)
Definition Command {S : System} (name : string) (arg : list string) : Cmd :=
  let cmd := {| Path := name; Args := name :: arg; Dir := "";
                Stdin := None; Stdout := None; Stderr := None;
                lookPathErr := None |} in
  if String.eqb (filepath.Base name) name then
    match LookPath name with
    | Err err => setLookPathErr cmd err
    | Ok lp => setPath cmd lp
    end
  else cmd.

End exec.

(** ** The collaborators of the handler, as interfaces *)

Module templates.

Class Provider : Type := {
  Template : Type;
  ConversionTemplateName : string;
  GetSubTemplate : string -> string -> result Template
}.

End templates.

Module fsutil.

(** [GetTempFileName] is given the number of names handed out so far. *)
Class Package : Type := {
  GetTempFileName : string -> nat -> string;
  OpenFile : string -> option error
}.

End fsutil.

(** A request, with what the handler reads from it: the mux variable
    [path] and what [getHostnameFromRequest] makes of the request. *)
Record Request : Type := { Vars_path : string; Host : string }.

Module handlerpkg.

(** The rest of package [handler] and the other collaborators:
    [getHostnameFromRequest], [renderTemplate] (the text it writes, or its
    error), the orchestrator's [GetConversionModel] (the model when found)
    and the constant [header.DYNAMICCONTENT_CACHEDURATION_SECONDS]. *)
Class Collaborators {R : route.Package} {T : templates.Provider} : Type := {
  getHostnameFromRequest : Request -> string;
  renderTemplate : viewmodel.ConversionModel -> templates.Template -> result string;
  GetConversionModel : string -> route.Route -> option viewmodel.ConversionModel;
  DYNAMICCONTENT_CACHEDURATION_SECONDS : Z
}.

End handlerpkg.

(** ** Effects

    What a request does to the outside world is recorded as a sequence of
    events, in program order. *)

Inductive Event : Type :=
| HeaderContentType (value : string)
| HeaderCache (seconds : Z)
| HeaderVaryAcceptEncoding
| HeaderAdd (key value : string)
| LogError (format : string) (args : list string)
| LogWarn (format : string) (args : list string)
| Error404
| BodyClose
| TempFileName (prefix : string)
| FileOpen (path : string)
| FileWriteString (path content : string)
| FileClose (path : string)
| CopyToResponse (path : string)
| OsPipe (id : nat)
| GoCopy (dst src : os.File)
| CmdStart (cmd : exec.Cmd)
| CmdWait (cmd : exec.Cmd).

(** The mutable part of the world: how many temporary names and pipes
    were handed out, and the calls deferred by the running function, the
    latest first. *)
Record State : Type := {
  tempFiles : nat;
  pipes : nat;
  deferred : list Event
}.

(** How a statement ends: control goes on with a value, the function
    returns, or the goroutine panics. *)
Inductive Flow (R A : Type) : Type :=
| Next (a : A)
| Return (r : R)
| Panic (msg : string).
Arguments Next {R A} a.
Arguments Return {R A} r.
Arguments Panic {R A} msg.

(** A statement of a function whose result type is [R]. *)
Definition M (R A : Type) : Type := State -> Flow R A * State * list Event.

Definition ret {R A} (a : A) : M R A := fun s => (Next a, s, []).

Definition bind {R A B} (m : M R A) (k : A -> M R B) : M R B :=
  fun s =>
    match m s with
    | (Next a, s1, t1) =>
        match k a s1 with
        | (f, s2, t2) => (f, s2, (t1 ++ t2)%list)
        end
    | (Return r, s1, t1) => (Return r, s1, t1)
    | (Panic msg, s1, t1) => (Panic msg, s1, t1)
    end.

Notation "x <- m ;; k" := (bind m (fun x => k))
  (at level 61, m at next level, right associativity).
Notation "' pat <- m ;; k" := (bind m (fun x => match x with pat => k end))
  (at level 61, pat pattern, m at next level, right associativity).
Notation "m ;; k" := (bind m (fun _ => k))
  (at level 61, right associativity).

Definition return_ {R A} (r : R) : M R A := fun s => (Return r, s, []).

Definition panic {R A} (msg : string) : M R A := fun s => (Panic msg, s, []).

Definition emit {R} (e : Event) : M R unit := fun s => (Next tt, s, [e]).

(** [defer f()] pushes the call; it runs when the function is left. *)
Definition defer {R} (e : Event) : M R unit :=
  fun s =>
    (Next tt,
     {| tempFiles := tempFiles s; pipes := pipes s;
        deferred := e :: deferred s |},
     []).

(** A call: the callee runs with its own deferred calls, which run, the
    latest first, when it returns or panics. *)
Definition call {R R'} (body : M R R) : M R' R :=
  fun s =>
    match body {| tempFiles := tempFiles s; pipes := pipes s; deferred := [] |} with
    | (f, s1, t) =>
        let s2 := {| tempFiles := tempFiles s1; pipes := pipes s1;
                     deferred := deferred s |} in
        match f with
        | Next r | Return r => (Next r, s2, (t ++ deferred s1)%list)
        | Panic msg => (Panic msg, s2, (t ++ deferred s1)%list)
        end
    end.

(** [a[i]] on a slice: out of range panics. *)
Definition index {R A} (a : list A) (i : nat) : M R A :=
  match nth_error a i with
  | Some x => ret x
  | None => panic "index out of range"
  end.

Section Program.

Context {RP : route.Package} {TP : templates.Provider} {FS : fsutil.Package}
        {OS : exec.System} {HC : handlerpkg.Collaborators}.

(** *** Operations on the world *)

Definition GetTempFileName {R} (prefix : string) : M R string :=
  fun s =>
    (Next (fsutil.GetTempFileName prefix (tempFiles s)),
     {| tempFiles := S (tempFiles s); pipes := pipes s; deferred := deferred s |},
     [TempFileName prefix]).

Definition OpenFile {R} (path : string) : M R (option error) :=
  emit (FileOpen path) ;; ret (fsutil.OpenFile path).

(** [Cmd.Start] and [Cmd.Wait] read the fields of the command: on a
    nil pointer they panic. *)
Definition Start {R} (c : option exec.Cmd) : M R (option error) :=
  match c with
  | None => panic "invalid memory address or nil pointer dereference"
  | Some cmd => emit (CmdStart cmd) ;; ret (exec.Start cmd)
  end.

Definition Wait {R} (c : option exec.Cmd) : M R (option error) :=
  match c with
  | None => panic "invalid memory address or nil pointer dereference"
  | Some cmd => emit (CmdWait cmd) ;; ret (exec.Wait cmd)
  end.

(** [Cmd.Run]: start the child, then wait until it has exited. *)
Definition Run {R} (cmd : exec.Cmd) : M R (option error) :=
  err <- Start (Some cmd) ;;
  match err with
  | Some e => ret (Some e)
  | None => Wait (Some cmd)
  end.

Definition osPipe {R} : M R (result nat) :=
  fun s =>
    match exec.Pipe (pipes s) with
    | Some e => (Next (Err e), s, [])
    | None =>
        (Next (Ok (pipes s)),
         {| tempFiles := tempFiles s; pipes := S (pipes s); deferred := deferred s |},
         [OsPipe (pipes s)])
    end.

(** [Cmd.StdoutPipe]: refused when [Stdout] is set; else the command
    gets the write end and the caller the read end. *)
Definition StdoutPipe {R} (c : exec.Cmd) : M R (exec.Cmd * result os.File) :=
  match exec.Stdout c with
  | Some _ => ret (c, Err "exec: Stdout already set")
  | None =>
      p <- osPipe ;;
      match p with
      | Err e => ret (c, Err e)
      | Ok id => ret (exec.setStdout c (os.PipeWriter id), Ok (os.PipeReader id))
      end
  end.

Definition StderrPipe {R} (c : exec.Cmd) : M R (exec.Cmd * result os.File) :=
  match exec.Stderr c with
  | Some _ => ret (c, Err "exec: Stderr already set")
  | None =>
      p <- osPipe ;;
      match p with
      | Err e => ret (c, Err e)
      | Ok id => ret (exec.setStderr c (os.PipeWriter id), Ok (os.PipeReader id))
      end
  end.

(** *** The handler struct: its configuration (the orchestrator and the
    template provider are the interfaces above, the logger and the 404
    handler are seen through the events). *)
Record Rtf : Type := { config_ : config.Config }.

Definition rtfConfig (handler : Rtf) : config.RtfConversion :=
  config.Rtf (config.Conversion_ (config_ handler)).

(** *** [convertToHtml] *)
Definition convertToHtml (handler : Rtf) (hostname : string)
    (viewModel : viewmodel.ConversionModel) : M string string :=
  match templates.GetSubTemplate hostname templates.ConversionTemplateName with
  | Err _ =>
      emit (LogError "No template for item of type %q." [viewmodel.Type_ viewModel]) ;;
      return_ ""
  | Ok template =>
      match handlerpkg.renderTemplate viewModel template with
      | Err err =>
          emit (LogError "%s" [err]) ;;
          return_ ""
      | Ok text => return_ text
      end
  end.

(** *** [getRichTextFilename] *)
Definition getRichTextFilename (model : viewmodel.ConversionModel) : string :=
  let fallback := "document" in
  match route.NewFromRequest (viewmodel.Route model) with
  | Err _ => fallback
  | Ok originalRoute =>
      match route.NewFromRequest (route.LastComponentName originalRoute) with
      | Err _ => fallback
      | Ok fileNameRoute =>
          if (viewmodel.Level model =? 0)%Z then
            match route.NewFromRequest (viewmodel.Title model) with
            | Err _ => fallback
            | Ok fileNameRoute => route.Value fileNameRoute ++ ".rtf"
            end
          else route.Value fileNameRoute ++ ".rtf"
      end
  end.

(** *** The path the route is parsed from: the suffix [rtf], then a dot *)
Definition stripRtfSuffix (path : string) : string :=
  let path := strings.TrimSuffix path "rtf" in
  strings.TrimSuffix path ".".

(** *** The body of the function returned by [Func] *)
Definition Func (handler : Rtf) (r : Request) : M unit unit :=
  emit (HeaderContentType "application/rtf; charset=utf-8") ;;
  emit (HeaderCache handlerpkg.DYNAMICCONTENT_CACHEDURATION_SECONDS) ;;
  emit HeaderVaryAcceptEncoding ;;
  let path := Vars_path r in
  let path := strings.TrimSuffix path "rtf" in
  let path := strings.TrimSuffix path "." in
  match route.NewFromRequest path with
  | Err err =>
      emit (LogError "Unable to get route from request. Error: %s" [err]) ;;
      return_ tt
  | Ok requestRoute =>
      defer BodyClose ;;
      if negb (config.Enabled (rtfConfig handler)) then
        emit (LogWarn "Cannot convert item %q to RTF. RTF conversion is disabled in the config."
                [route.RouteString requestRoute]) ;;
        emit Error404 ;;
        return_ tt
      else
      let converterToolIsConfigured :=
        (0 <? String.length (config.Tool (rtfConfig handler)))%nat in
      if negb converterToolIsConfigured then
        emit (LogWarn "Cannot convert item %q to RTF. There is no rtf conversion tool configured."
                [route.RouteString requestRoute]) ;;
        emit Error404 ;;
        return_ tt
      else
      let hostname := handlerpkg.getHostnameFromRequest r in
      match handlerpkg.GetConversionModel hostname requestRoute with
      | None =>
          emit Error404 ;;
          return_ tt
      | Some model =>
          html <- call (convertToHtml handler hostname model) ;;
          name <- GetTempFileName "html-source" ;;
          let htmlFilePath := name ++ ".html" in
          err <- OpenFile htmlFilePath ;;
          match err with
          | Some err =>
              emit (LogError "Cannot open HTML file for writing. Error: %s" [err]) ;;
              return_ tt
          | None =>
              defer (FileClose htmlFilePath) ;;
              emit (FileWriteString htmlFilePath html) ;;
              name <- GetTempFileName "rtf-target" ;;
              let targetFile := name ++ ".rtf" in
              let args := ["-s"; htmlFilePath; "-o"; targetFile] in
              let cmd := exec.Command (config.Tool (rtfConfig handler)) args in
              let cmd := exec.setStdout cmd os.Stdout in
              let cmd := exec.setStderr cmd os.Stderr in
              err <- Run cmd ;;
              match err with
              | Some err =>
                  emit (LogError "Could not run pandoc: %v" [err]) ;;
                  return_ tt
              | None =>
                  err <- OpenFile targetFile ;;
                  match err with
                  | Some err =>
                      emit (LogError "Cannot open target file. Error: %s" [err]) ;;
                      return_ tt
                  | None =>
                      defer (FileClose targetFile) ;;
                      emit (HeaderAdd "Content-Disposition"
                              ("attachment; filename=" ++ dquote
                               ++ getRichTextFilename model ++ dquote)) ;;
                      emit (CopyToResponse targetFile) ;;
                      return_ tt
                  end
              end
          end
      end
  end.

(** One request served: the body runs as a call, so that its deferred
    calls run when it is left. *)
Definition serve (handler : Rtf) (r : Request) : M unit unit :=
  call (Func handler r).

(** *** The general process primitive *)

Definition redirectCommandIO (cmd : exec.Cmd)
  : M (exec.Cmd * (option os.File * option error))
      (exec.Cmd * (option os.File * option error)) :=
  ' (cmd, p) <- StdoutPipe cmd ;;
  match p with
  | Err err => return_ (cmd, (None, Some err))
  | Ok stdout =>
      ' (cmd, p) <- StderrPipe cmd ;;
      match p with
      | Err err => return_ (cmd, (None, Some err))
      | Ok stderr =>
          emit (GoCopy os.Stdout stdout) ;;
          emit (GoCopy os.Stderr stderr) ;;
          let cmd := exec.setStdin cmd os.Stdin in
          return_ (cmd, (None, None))
      end
  end.

(** The result is the command pointer: [None] is [nil]. *)
Definition getCmd (directory commandText : string)
  : M (option exec.Cmd) (option exec.Cmd) :=
  if String.eqb commandText "" then return_ None
  else
    let components := strings.Split commandText " "%char in
    commandName <- index components 0 ;;
    let arguments :=
      if (1 <? List.length components)%nat then skipn 1 components else [] in
    let command := exec.Command commandName arguments in
    let command := exec.setDir command directory in
    ' (command, _) <- call (redirectCommandIO command) ;;
    return_ (Some command).

Definition execute (directory commandText : string)
  : M (option error) (option error) :=
  command <- call (getCmd directory commandText) ;;
  err <- Start command ;;
  match err with
  | Some err => return_ (Some err)
  | None =>
      err <- Wait command ;;
      return_ err
  end.

End Program.

(** ** Reading a trace *)

(** The events by which a child process is launched. *)
Definition launchesProcess (e : Event) : bool :=
  match e with
  | CmdStart _ => true
  | _ => false
  end.

(** The events by which a temporary file is named, opened or written. *)
Definition touchesTempFile (e : Event) : bool :=
  match e with
  | TempFileName _ | FileOpen _ | FileWriteString _ _ => true
  | _ => false
  end.

Definition is404 (e : Event) : bool :=
  match e with
  | Error404 => true
  | _ => false
  end.

(** What a client or an operator can tell apart: every event, a log entry
    by its level only (the wording of the message is left out). *)
Definition observe (e : Event) : Event :=
  match e with
  | LogError _ _ => LogError "" []
  | LogWarn _ _ => LogWarn "" []
  | e => e
  end.

Definition observable (t : list Event) : list Event := map observe t.

(** The three header calls every request starts with. *)
Definition headerEvents (seconds : Z) : list Event :=
  [HeaderContentType "application/rtf; charset=utf-8";
   HeaderCache seconds;
   HeaderVaryAcceptEncoding].

(** ** The specification's words, for comparison with the code *)

Module Spec.

(** The suffix removed by hand: [.rtf] where the path ends with it, else
    the bare [rtf]. *)
Definition removeSuffixManually (p : string) : string :=
  if strings.HasSuffix p ".rtf" then substring 0 (String.length p - 4) p
  else if strings.HasSuffix p "rtf" then substring 0 (String.length p - 3) p
  else p.

(** The file name as the specification derives it: the base name is the
    last segment of the parsed route, or the title at level 0; it is parsed
    again; any failure gives [document] with the extension. *)
Definition derivedFilename {RP : route.Package}
    (model : viewmodel.ConversionModel) : string :=
  match route.NewFromRequest (viewmodel.Route model) with
  | Err _ => "document" ++ ".rtf"
  | Ok originalRoute =>
      let base :=
        if (viewmodel.Level model =? 0)%Z then viewmodel.Title model
        else route.LastComponentName originalRoute in
      match route.NewFromRequest base with
      | Err _ => "document" ++ ".rtf"
      | Ok fileNameRoute => route.Value fileNameRoute ++ ".rtf"
      end
  end.

(** White space in the sense of Go's [unicode.IsSpace], on ASCII. *)
Definition isSpace (c : ascii) : bool :=
  let n := nat_of_ascii c in
  ((9 <=? n) && (n <=? 13))%nat || (n =? 32)%nat.

(** A command line split on white space: the maximal runs of characters
    that are not white space ([cur] is the run being read). *)
Fixpoint fieldsFrom (cur : string) (s : string) : list string :=
  match s with
  | EmptyString => if String.eqb cur "" then [] else [cur]
  | String c rest =>
      if isSpace c
      then (if String.eqb cur "" then fieldsFrom "" rest
            else cur :: fieldsFrom "" rest)
      else fieldsFrom (cur ++ String c EmptyString) rest
  end.

Definition Fields (s : string) : list string := fieldsFrom "" s.

(** The program name and the arguments of a command line split on white
    space: the first field and the remaining ones. *)
Definition programAndArguments (commandText : string)
  : option (string * list string) :=
  match Fields commandText with
  | [] => None
  | name :: arguments => Some (name, arguments)
  end.

End Spec.

(** ** Sample collaborators, to run the program on concrete requests *)

Module Sample.

Definition isControl (c : ascii) : bool :=
  ((nat_of_ascii c <? 32) || (nat_of_ascii c =? 127))%nat.

Definition wellFormed (s : string) : bool :=
  negb (String.eqb s "")
  && forallb (fun c => negb (isControl c)) (list_ascii_of_string s).

Definition lastSegment (s : string) : string :=
  last (strings.Split s "/"%char) "".

(** Modelled from the spec: package [route] is not among the sources.  The
    specification calls a route a slash-segmented path identifier that is
    constructible only from a well-formed path string and exposes its last
    path segment and a canonical string form, and has parsing fail on
    illegal characters.  Here a path is well formed when it is not empty
    and holds no control character; the canonical form is the path. *)
#[local] Instance routes : route.Package := {|
  route.Route := string;
  route.NewFromRequest := fun s =>
    if wellFormed s then Ok s else Err "malformed route";
  route.Value := fun r => r;
  route.LastComponentName := lastSegment;
  route.RouteString := fun r => r
|}.

(** One template per host, none for the host [nohost]. *)
#[local] Instance provider : templates.Provider := {|
  templates.Template := string;
  templates.ConversionTemplateName := "converter";
  templates.GetSubTemplate := fun hostname name =>
    if String.eqb hostname "nohost" then Err "template not found"
    else Ok ("<html>")
|}.

(** Names [/tmp/<prefix>-xx..x], one [x] more for every name handed out;
    every file can be opened. *)
Fixpoint marks (n : nat) : string :=
  match n with
  | O => ""
  | S n' => String "x"%char (marks n')
  end.

#[local] Instance files : fsutil.Package := {|
  fsutil.GetTempFileName := fun prefix n => "/tmp/" ++ prefix ++ "-" ++ marks n;
  fsutil.OpenFile := fun _ => None
|}.

(** [ls] and [pandoc] are found in [/usr/bin], nothing else is. *)
Definition lookPath (name : string) : result string :=
  if String.eqb name "ls" || String.eqb name "pandoc"
  then Ok ("/usr/bin/" ++ name)
  else Err "executable file not found in $PATH".

(** Pipes can be created; every command starts and exits with status 0. *)
#[local] Instance system : exec.System := {|
  exec.LookPath := lookPath;
  exec.Pipe := fun _ => None;
  exec.Start := fun _ => None;
  exec.Wait := fun _ => None
|}.

Definition intro : viewmodel.ConversionModel :=
  {| viewmodel.Route := "docs/guide/intro"; viewmodel.Title := "Introduction";
     viewmodel.Level := 2; viewmodel.Type_ := "document" |}.

(** The orchestrator knows one item, [docs/guide/intro]; a model whose
    title has a control character cannot be rendered. *)
#[local] Instance collaborators : handlerpkg.Collaborators := {|
  handlerpkg.getHostnameFromRequest := Host;
  handlerpkg.renderTemplate := fun model template =>
    if wellFormed (viewmodel.Title model)
    then Ok (template ++ viewmodel.Title model ++ "</html>")
    else Err "template: cannot render";
  handlerpkg.GetConversionModel := fun hostname r =>
    if String.eqb r "docs/guide/intro" then Some intro else None;
  handlerpkg.DYNAMICCONTENT_CACHEDURATION_SECONDS := 0
|}.

Definition handlerWith (enabled : bool) (tool : string) : Rtf :=
  {| config_ := {| config.Conversion_ :=
       {| config.Rtf := {| config.Enabled := enabled; config.Tool := tool |} |} |} |}.

Definition request (path host : string) : Request :=
  {| Vars_path := path; Host := host |}.

Definition start : State := {| tempFiles := 0; pipes := 0; deferred := [] |}.

Definition enabled : Rtf := handlerWith true "pandoc".
Definition disabled : Rtf := handlerWith false "pandoc".
Definition unconfigured : Rtf := handlerWith true "".
Definition introRequest : Request := request "docs/guide/intro.rtf" "example.org".
Definition otherRequest : Request := request "docs/guide/other.rtf" "example.org".

Definition tab : string := String (ascii_of_nat 9) EmptyString.

(** A root item, a root item whose route ends with a slash, and an item
    whose route holds a tab. *)
Definition home : viewmodel.ConversionModel :=
  {| viewmodel.Route := "home"; viewmodel.Title := "My Document";
     viewmodel.Level := 0; viewmodel.Type_ := "repository" |}.

Definition homeSlash : viewmodel.ConversionModel :=
  {| viewmodel.Route := "home/"; viewmodel.Title := "My Document";
     viewmodel.Level := 0; viewmodel.Type_ := "repository" |}.

Definition tabbed : viewmodel.ConversionModel :=
  {| viewmodel.Route := "docs" ++ tab ++ "x"; viewmodel.Title := "Notes";
     viewmodel.Level := 1; viewmodel.Type_ := "document" |}.

(** Systems on which pipes cannot be created: none at all, or only the
    first one; and a request whose path holds a tab. *)
Definition noPipes : exec.System := {|
  exec.LookPath := lookPath;
  exec.Pipe := fun _ => Some "pipe: too many open files";
  exec.Start := fun _ => None;
  exec.Wait := fun _ => None
|}.

Definition onePipe : exec.System := {|
  exec.LookPath := lookPath;
  exec.Pipe := fun n =>
    match n with
    | O => None
    | S _ => Some "pipe: too many open files"
    end;
  exec.Start := fun _ => None;
  exec.Wait := fun _ => None
|}.

Definition tabbedRequest : Request := request ("docs" ++ tab ++ "x.rtf") "example.org".

Definition nohostRequest : Request := request "docs/guide/intro.rtf" "nohost".

End Sample.

(** ** More ways to read a trace, and names for the parts of a conversion *)

Definition isCopy (e : Event) : bool :=
  match e with
  | CopyToResponse _ => true
  | _ => false
  end.

Definition isDisposition (e : Event) : bool :=
  match e with
  | HeaderAdd _ _ => true
  | _ => false
  end.

Definition isLogError (e : Event) : bool :=
  match e with
  | LogError _ _ => true
  | _ => false
  end.

Definition isLogWarn (e : Event) : bool :=
  match e with
  | LogWarn _ _ => true
  | _ => false
  end.

(** The deferred calls of the handler: closing a file or the body. *)
Definition isClose (e : Event) : bool :=
  match e with
  | FileClose _ | BodyClose => true
  | _ => false
  end.

(** What only the general process primitive does: pipes and copy tasks. *)
Definition usesPipe (e : Event) : bool :=
  match e with
  | OsPipe _ | GoCopy _ _ => true
  | _ => false
  end.

(** The state when a request that started in [s] is over and [names]
    temporary names were handed out. *)
Definition stateAfter (s : State) (names : nat) : State :=
  {| tempFiles := names + tempFiles s; pipes := pipes s; deferred := deferred s |}.

Section ConversionParts.

Context {FS : fsutil.Package} {OS : exec.System}.

(** The paths of the two temporary files of a request that starts in
    state [s], and the command the handler builds from them. *)
Definition htmlFilePathAt (s : State) : string :=
  fsutil.GetTempFileName "html-source" (tempFiles s) ++ ".html".

Definition targetFileAt (s : State) : string :=
  fsutil.GetTempFileName "rtf-target" (S (tempFiles s)) ++ ".rtf".

Definition converterCommand (handler : Rtf) (s : State) : exec.Cmd :=
  let args := ["-s"; htmlFilePathAt s; "-o"; targetFileAt s] in
  let cmd := exec.Command (config.Tool (rtfConfig handler)) args in
  let cmd := exec.setStdout cmd os.Stdout in
  exec.setStderr cmd os.Stderr.

(** The files a trace has open: those of its [FileOpen] events that
    succeeded, in the order of opening. *)
Fixpoint openedFiles (t : list Event) : list string :=
  match t with
  | [] => []
  | FileOpen path :: rest =>
      match fsutil.OpenFile path with
      | None => path :: openedFiles rest
      | Some _ => openedFiles rest
      end
  | _ :: rest => openedFiles rest
  end.

End ConversionParts.

(** * Properties *)

(** ** Strings *)

Section StringFacts.

Lemma length_append (a b : string) :
  String.length (a ++ b) = String.length a + String.length b.
Proof.
  induction a as [|c a IH]; simpl; [reflexivity | now rewrite IH].
Qed.

Lemma append_assoc (a b c : string) : (a ++ b) ++ c = a ++ (b ++ c).
Proof.
  induction a as [|x a IH]; simpl; [reflexivity | now rewrite IH].
Qed.

Lemma substring_zero_zero (s : string) : substring 0 0 s = "".
Proof. destruct s; reflexivity. Qed.

Lemma substring_append_prefix (a b : string) :
  substring 0 (String.length a) (a ++ b) = a.
Proof.
  induction a as [|c a IH]; simpl.
  - apply substring_zero_zero.
  - now rewrite IH.
Qed.

Lemma substring_whole (b : string) : substring 0 (String.length b) b = b.
Proof.
  induction b as [|c b IH]; simpl; [reflexivity | now rewrite IH].
Qed.

Lemma substring_append_suffix (a b : string) :
  substring (String.length a) (String.length b) (a ++ b) = b.
Proof.
  induction a as [|c a IH]; simpl.
  - apply substring_whole.
  - exact IH.
Qed.

Lemma substring_split (s : string) (k : nat) :
  k <= String.length s ->
  substring 0 k s ++ substring k (String.length s - k) s = s.
Proof.
  revert k; induction s as [|c s IH]; intros k Hk; simpl in Hk.
  - assert (k = 0) by lia; subst; reflexivity.
  - destruct k as [|k].
    + simpl. now rewrite substring_whole.
    + simpl. rewrite IH by lia. reflexivity.
Qed.

Lemma append_cancel_r (a b s : string) : a ++ s = b ++ s -> a = b.
Proof.
  intros H.
  assert (Hlen : String.length a = String.length b).
  { apply (f_equal String.length) in H. rewrite !length_append in H. lia. }
  rewrite <- (substring_append_prefix a s), <- (substring_append_prefix b s).
  now rewrite H, Hlen.
Qed.

Lemma HasSuffix_append (b suffix : string) :
  strings.HasSuffix (b ++ suffix) suffix = true.
Proof.
  unfold strings.HasSuffix. rewrite length_append.
  replace (String.length b + String.length suffix - String.length suffix)
    with (String.length b) by lia.
  rewrite substring_append_suffix, String.eqb_refl.
  rewrite andb_true_r. apply Nat.leb_le. lia.
Qed.

Lemma HasSuffix_elim (s suffix : string) :
  strings.HasSuffix s suffix = true ->
  s = substring 0 (String.length s - String.length suffix) s ++ suffix.
Proof.
  unfold strings.HasSuffix. intros H.
  apply andb_true_iff in H. destruct H as [Hle Heq].
  apply Nat.leb_le in Hle. apply String.eqb_eq in Heq.
  remember (String.length s - String.length suffix) as k eqn:Hk.
  rewrite <- (substring_split s k) at 1 by lia.
  f_equal.
  replace (String.length s - k) with (String.length suffix) by lia.
  exact Heq.
Qed.

Lemma HasSuffix_iff (s suffix : string) :
  strings.HasSuffix s suffix = true <-> exists b, s = b ++ suffix.
Proof.
  split.
  - intros H. eexists. apply HasSuffix_elim. exact H.
  - intros [b ->]. apply HasSuffix_append.
Qed.

Lemma TrimSuffix_append (b suffix : string) :
  strings.TrimSuffix (b ++ suffix) suffix = b.
Proof.
  unfold strings.TrimSuffix. rewrite HasSuffix_append, length_append.
  replace (String.length b + String.length suffix - String.length suffix)
    with (String.length b) by lia.
  apply substring_append_prefix.
Qed.

Lemma TrimSuffix_absent (s suffix : string) :
  strings.HasSuffix s suffix = false -> strings.TrimSuffix s suffix = s.
Proof. unfold strings.TrimSuffix. now intros ->. Qed.

(** A path ends with [.rtf] exactly when what is left of it without [rtf]
    ends with a dot. *)
Lemma HasSuffix_dot_rtf (b : string) :
  strings.HasSuffix (b ++ "rtf") ".rtf" = strings.HasSuffix b ".".
Proof.
  destruct (strings.HasSuffix b ".") eqn:Hb.
  - apply HasSuffix_iff in Hb. destruct Hb as [c ->].
    rewrite append_assoc. apply (HasSuffix_append c ".rtf").
  - destruct (strings.HasSuffix (b ++ "rtf") ".rtf") eqn:Hp; [|reflexivity].
    apply HasSuffix_iff in Hp. destruct Hp as [c Hc].
    change (c ++ ".rtf") with (c ++ ("." ++ "rtf")) in Hc.
    rewrite <- append_assoc in Hc. apply append_cancel_r in Hc.
    rewrite Hc, HasSuffix_append in Hb. discriminate.
Qed.

Lemma stripRtfSuffix_manual (p : string) :
  strings.HasSuffix p "rtf" = true ->
  stripRtfSuffix p = Spec.removeSuffixManually p.
Proof.
  intros H. apply HasSuffix_iff in H. destruct H as [b ->].
  unfold stripRtfSuffix, Spec.removeSuffixManually.
  rewrite TrimSuffix_append, HasSuffix_dot_rtf.
  destruct (strings.HasSuffix b ".") eqn:Hb.
  - apply HasSuffix_iff in Hb. destruct Hb as [c ->].
    rewrite TrimSuffix_append, append_assoc.
    change ("." ++ "rtf") with ".rtf".
    rewrite length_append. simpl String.length.
    replace (String.length c + 4 - 4) with (String.length c) by lia.
    symmetry. apply substring_append_prefix.
  - rewrite TrimSuffix_absent by exact Hb.
    rewrite HasSuffix_append, length_append. simpl String.length.
    replace (String.length b + 3 - 3) with (String.length b) by lia.
    symmetry. apply substring_append_prefix.
Qed.

End StringFacts.

(** ** Commands *)

Section CommandFacts.

Context {OS : exec.System}.

(** Of the fields of a new command only [Path] and the kept error depend
    on the lookup. *)
Lemma Command_record (name : string) (arg : list string) :
  exec.Command name arg
  = {| exec.Path := exec.Path (exec.Command name arg);
       exec.Args := name :: arg;
       exec.Dir := "";
       exec.Stdin := None;
       exec.Stdout := None;
       exec.Stderr := None;
       exec.lookPathErr := exec.lookPathErr (exec.Command name arg) |}.
Proof.
  unfold exec.Command.
  destruct (String.eqb (filepath.Base name) name);
    [destruct (exec.LookPath name)|]; reflexivity.
Qed.

Lemma Command_streams (name : string) (arg : list string) (out err : os.File) :
  exec.setStderr (exec.setStdout (exec.Command name arg) out) err
  = {| exec.Path := exec.Path (exec.Command name arg);
       exec.Args := name :: arg;
       exec.Dir := "";
       exec.Stdin := None;
       exec.Stdout := Some out;
       exec.Stderr := Some err;
       exec.lookPathErr := exec.lookPathErr (exec.Command name arg) |}.
Proof. rewrite (Command_record name arg) at 1. reflexivity. Qed.

(** Where the executable is: the name as given when it has a directory
    part (or is empty); else the place where [LookPath] finds it; else the
    name, with the error of the lookup kept for [Start]. *)
Lemma Command_path (name : string) (arg : list string) :
  (filepath.Base name <> name ->
   exec.Path (exec.Command name arg) = name
   /\ exec.lookPathErr (exec.Command name arg) = None)
  /\ (forall lp,
       filepath.Base name = name -> exec.LookPath name = Ok lp ->
       exec.Path (exec.Command name arg) = lp
       /\ exec.lookPathErr (exec.Command name arg) = None)
  /\ (forall e,
       filepath.Base name = name -> exec.LookPath name = Err e ->
       exec.Path (exec.Command name arg) = name
       /\ exec.lookPathErr (exec.Command name arg) = Some e).
Proof.
  unfold exec.Command.
  destruct (String.eqb_spec (filepath.Base name) name) as [Hb|Hb].
  - split; [intros H; now contradict H|].
    split; intros x _ Hl; rewrite Hl; now split.
  - split; [now split|]. split; intros x H; now contradict H.
Qed.

End CommandFacts.

(** ** The route of a request and the download file name *)

Section RouteFacts.

Context {RP : route.Package}.

(** C5: for a path that ends with the token [rtf], the handler's
    stripping (the bare token first, then one dangling dot) leaves the same
    text, hence the same parsed route, as removing [.rtf] or [rtf] by hand;
    a path [b.rtf] is stripped to [b], and so is [brtf] when [b] has no
    trailing dot. *)
Theorem suffix_stripping_matches_manual_removal (p : string) :
  strings.HasSuffix p "rtf" = true ->
  stripRtfSuffix p = strings.TrimSuffix (strings.TrimSuffix p "rtf") "."
  /\ route.NewFromRequest (stripRtfSuffix p)
     = route.NewFromRequest (Spec.removeSuffixManually p)
  /\ (forall b, p = b ++ ".rtf" -> stripRtfSuffix p = b)
  /\ (forall b, p = b ++ "rtf" -> strings.HasSuffix b "." = false ->
                stripRtfSuffix p = b).
Proof.
  intros Hp. split; [reflexivity|]. split; [|split].
  - now rewrite stripRtfSuffix_manual.
  - intros b ->. unfold stripRtfSuffix.
    change (b ++ ".rtf") with (b ++ ("." ++ "rtf")).
    rewrite <- append_assoc. now rewrite !TrimSuffix_append.
  - intros b -> Hb. unfold stripRtfSuffix.
    rewrite TrimSuffix_append. now apply TrimSuffix_absent.
Qed.

(** On every failing parse the function returns the variable [fallback]
    as it is. *)
Lemma getRichTextFilename_fallback (model : viewmodel.ConversionModel) :
  (exists e, route.NewFromRequest (viewmodel.Route model) = Err e)
  \/ (exists originalRoute e,
         route.NewFromRequest (viewmodel.Route model) = Ok originalRoute
         /\ route.NewFromRequest (route.LastComponentName originalRoute) = Err e)
  \/ (viewmodel.Level model = 0%Z
      /\ exists e, route.NewFromRequest (viewmodel.Title model) = Err e) ->
  getRichTextFilename model = "document".
Proof.
  unfold getRichTextFilename.
  intros [[e He] | [(o & e & Ho & He) | (Hz & e & He)]].
  - now rewrite He.
  - now rewrite Ho, He.
  - rewrite Hz, He. simpl.
    destruct (route.NewFromRequest (viewmodel.Route model)) as [o|]; [|reflexivity].
    now destruct (route.NewFromRequest (route.LastComponentName o)).
Qed.

(** Where the code and the derivation in the specification's words part,
    for every route package: a route that does not parse gives [document]
    against [document.rtf]; and a root item whose last segment does not
    parse gives [document] although its title parses. *)
Lemma fallback_without_extension (model : viewmodel.ConversionModel) (e : error) :
  route.NewFromRequest (viewmodel.Route model) = Err e ->
  getRichTextFilename model = "document"
  /\ Spec.derivedFilename model = "document.rtf".
Proof.
  intros H. unfold getRichTextFilename, Spec.derivedFilename.
  now rewrite H.
Qed.

Lemma root_item_with_unparsed_segment (model : viewmodel.ConversionModel)
    (originalRoute titleRoute : route.Route) (e : error) :
  viewmodel.Level model = 0%Z ->
  route.NewFromRequest (viewmodel.Route model) = Ok originalRoute ->
  route.NewFromRequest (route.LastComponentName originalRoute) = Err e ->
  route.NewFromRequest (viewmodel.Title model) = Ok titleRoute ->
  getRichTextFilename model = "document"
  /\ Spec.derivedFilename model = route.Value titleRoute ++ ".rtf".
Proof.
  intros Hz Ho Hl Ht. split.
  - unfold getRichTextFilename. now rewrite Ho, Hl.
  - unfold Spec.derivedFilename. rewrite Ho, Hz. simpl. now rewrite Ht.
Qed.

(** C1, as amended: the route is parsed, then its last segment, at every
    level, then, at level 0, the title.  When these parses succeed the file
    name is the canonical form of the parsed last segment (level not 0) or
    of the parsed title (level 0), followed by [.rtf]; when one of them
    fails it is the fallback name, whose base name is [document]. *)
Theorem getRichTextFilename_derivation (model : viewmodel.ConversionModel) :
  (forall originalRoute fileNameRoute,
      route.NewFromRequest (viewmodel.Route model) = Ok originalRoute ->
      route.NewFromRequest (route.LastComponentName originalRoute) = Ok fileNameRoute ->
      viewmodel.Level model <> 0%Z ->
      getRichTextFilename model = route.Value fileNameRoute ++ ".rtf")
  /\ (forall originalRoute lastRoute fileNameRoute,
      route.NewFromRequest (viewmodel.Route model) = Ok originalRoute ->
      route.NewFromRequest (route.LastComponentName originalRoute) = Ok lastRoute ->
      viewmodel.Level model = 0%Z ->
      route.NewFromRequest (viewmodel.Title model) = Ok fileNameRoute ->
      getRichTextFilename model = route.Value fileNameRoute ++ ".rtf")
  /\ ((exists e, route.NewFromRequest (viewmodel.Route model) = Err e)
      \/ (exists originalRoute e,
             route.NewFromRequest (viewmodel.Route model) = Ok originalRoute
             /\ route.NewFromRequest (route.LastComponentName originalRoute) = Err e)
      \/ (viewmodel.Level model = 0%Z
          /\ exists e, route.NewFromRequest (viewmodel.Title model) = Err e) ->
      strings.TrimSuffix (getRichTextFilename model) ".rtf" = "document").
Proof.
  split; [|split].
  - unfold getRichTextFilename. intros o f Ho Hf Hl. rewrite Ho, Hf.
    apply Z.eqb_neq in Hl. now rewrite Hl.
  - unfold getRichTextFilename. intros o l f Ho Hl Hz Hf.
    rewrite Ho, Hl, Hz, Hf. reflexivity.
  - intros H. rewrite (getRichTextFilename_fallback model H). reflexivity.
Qed.

(** C10: at level 0 the last route segment is parsed before the level is
    looked at: when that parse fails the name is the fallback whatever the
    title is; the name comes from the title when the last segment and the
    title both parse, and only then. *)
Theorem level0_filename_needs_last_segment (model : viewmodel.ConversionModel) :
  viewmodel.Level model = 0%Z ->
  (forall originalRoute e,
      route.NewFromRequest (viewmodel.Route model) = Ok originalRoute ->
      route.NewFromRequest (route.LastComponentName originalRoute) = Err e ->
      getRichTextFilename model = "document")
  /\ (forall originalRoute lastRoute titleRoute,
      route.NewFromRequest (viewmodel.Route model) = Ok originalRoute ->
      route.NewFromRequest (route.LastComponentName originalRoute) = Ok lastRoute ->
      route.NewFromRequest (viewmodel.Title model) = Ok titleRoute ->
      getRichTextFilename model = route.Value titleRoute ++ ".rtf")
  /\ (getRichTextFilename model <> "document" ->
      exists originalRoute lastRoute titleRoute,
        route.NewFromRequest (viewmodel.Route model) = Ok originalRoute
        /\ route.NewFromRequest (route.LastComponentName originalRoute) = Ok lastRoute
        /\ route.NewFromRequest (viewmodel.Title model) = Ok titleRoute
        /\ getRichTextFilename model = route.Value titleRoute ++ ".rtf").
Proof.
  intros Hz. unfold getRichTextFilename. rewrite Hz. simpl.
  split; [|split].
  - intros o e Ho He. now rewrite Ho, He.
  - intros o l t Ho Hl Ht. now rewrite Ho, Hl, Ht.
  - destruct (route.NewFromRequest (viewmodel.Route model)) as [o|] eqn:Ho;
      [|intros H; now contradict H].
    destruct (route.NewFromRequest (route.LastComponentName o)) as [l|] eqn:Hl;
      [|intros H; now contradict H].
    destruct (route.NewFromRequest (viewmodel.Title model)) as [t|] eqn:Ht;
      [|intros H; now contradict H].
    intros _. exists o, l, t. rewrite Hl. auto.
Qed.

End RouteFacts.

(** ** The handler *)

Section HandlerFacts.

Context {RP : route.Package} {TP : templates.Provider} {FS : fsutil.Package}
        {OS : exec.System} {HC : handlerpkg.Collaborators}.

Lemma state_eta (s : State) :
  {| tempFiles := tempFiles s; pipes := pipes s; deferred := deferred s |} = s.
Proof. now destruct s. Qed.

(** The handler parses the stripped path and nothing else happens before
    the gates but the three header calls. *)
Lemma serve_malformed (handler : Rtf) (r : Request) (e : error) (s : State) :
  route.NewFromRequest (stripRtfSuffix (Vars_path r)) = Err e ->
  serve handler r s
  = (Next tt, s,
     headerEvents handlerpkg.DYNAMICCONTENT_CACHEDURATION_SECONDS
     ++ [LogError "Unable to get route from request. Error: %s" [e]])%list.
Proof.
  intros H. unfold serve, call, Func, bind, emit, return_.
  unfold stripRtfSuffix in H. rewrite H. simpl. now rewrite state_eta.
Qed.

Lemma serve_disabled (handler : Rtf) (r : Request) (requestRoute : route.Route)
    (s : State) :
  route.NewFromRequest (stripRtfSuffix (Vars_path r)) = Ok requestRoute ->
  config.Enabled (rtfConfig handler) = false ->
  serve handler r s
  = (Next tt, s,
     headerEvents handlerpkg.DYNAMICCONTENT_CACHEDURATION_SECONDS
     ++ [LogWarn "Cannot convert item %q to RTF. RTF conversion is disabled in the config."
           [route.RouteString requestRoute];
         Error404; BodyClose])%list.
Proof.
  intros H He. unfold serve, call, Func, bind, emit, return_, defer.
  unfold stripRtfSuffix in H. rewrite H, He. simpl. now rewrite state_eta.
Qed.

Lemma serve_unconfigured (handler : Rtf) (r : Request) (requestRoute : route.Route)
    (s : State) :
  route.NewFromRequest (stripRtfSuffix (Vars_path r)) = Ok requestRoute ->
  config.Enabled (rtfConfig handler) = true ->
  config.Tool (rtfConfig handler) = "" ->
  serve handler r s
  = (Next tt, s,
     headerEvents handlerpkg.DYNAMICCONTENT_CACHEDURATION_SECONDS
     ++ [LogWarn "Cannot convert item %q to RTF. There is no rtf conversion tool configured."
           [route.RouteString requestRoute];
         Error404; BodyClose])%list.
Proof.
  intros H He Ht. unfold serve, call, Func, bind, emit, return_, defer.
  unfold stripRtfSuffix in H. rewrite H, He, Ht. simpl. now rewrite state_eta.
Qed.

Lemma tool_configured (tool : string) :
  tool <> "" -> (0 <? String.length tool)%nat = true.
Proof. destruct tool; [congruence | reflexivity]. Qed.

Lemma serve_not_found (handler : Rtf) (r : Request) (requestRoute : route.Route)
    (s : State) :
  route.NewFromRequest (stripRtfSuffix (Vars_path r)) = Ok requestRoute ->
  config.Enabled (rtfConfig handler) = true ->
  config.Tool (rtfConfig handler) <> "" ->
  handlerpkg.GetConversionModel (handlerpkg.getHostnameFromRequest r) requestRoute = None ->
  serve handler r s
  = (Next tt, s,
     headerEvents handlerpkg.DYNAMICCONTENT_CACHEDURATION_SECONDS
     ++ [Error404; BodyClose])%list.
Proof.
  intros H He Ht Hm. unfold serve, call, Func, bind, emit, return_, defer.
  unfold stripRtfSuffix in H. rewrite H, He, (tool_configured _ Ht), Hm.
  simpl. now rewrite state_eta.
Qed.

(** C2: with conversion disabled, a request whose path parses to a route
    ends in the 404 handler, called once, and the handler returns; no
    process is launched and no temporary file is named, opened or
    written. *)
Theorem disabled_conversion_yields_404 (handler : Rtf) (r : Request)
    (requestRoute : route.Route) (s : State) :
  config.Enabled (rtfConfig handler) = false ->
  route.NewFromRequest (stripRtfSuffix (Vars_path r)) = Ok requestRoute ->
  fst (serve handler r s) = (Next tt, s)
  /\ filter is404 (snd (serve handler r s)) = [Error404]
  /\ existsb launchesProcess (snd (serve handler r s)) = false
  /\ existsb touchesTempFile (snd (serve handler r s)) = false
  /\ last (snd (serve handler r s)) Error404 = BodyClose.
Proof.
  intros He H. rewrite (serve_disabled handler r requestRoute s H He).
  repeat split.
Qed.

(** C3: when the path parses and the orchestrator has no model for the
    host and the route, the 404 handler is called once and the handler
    returns, whatever the configuration; no temporary file is named, opened
    or written and no process is launched.  With conversion enabled and a
    tool configured nothing else happens but the header calls and the
    closing of the request body. *)
Theorem missing_model_yields_404 (handler : Rtf) (r : Request)
    (requestRoute : route.Route) (s : State) :
  route.NewFromRequest (stripRtfSuffix (Vars_path r)) = Ok requestRoute ->
  handlerpkg.GetConversionModel (handlerpkg.getHostnameFromRequest r) requestRoute = None ->
  fst (serve handler r s) = (Next tt, s)
  /\ filter is404 (snd (serve handler r s)) = [Error404]
  /\ existsb touchesTempFile (snd (serve handler r s)) = false
  /\ existsb launchesProcess (snd (serve handler r s)) = false
  /\ (config.Enabled (rtfConfig handler) = true ->
      config.Tool (rtfConfig handler) <> "" ->
      snd (serve handler r s)
      = (headerEvents handlerpkg.DYNAMICCONTENT_CACHEDURATION_SECONDS
         ++ [Error404; BodyClose])%list).
Proof.
  intros H Hm.
  destruct (config.Enabled (rtfConfig handler)) eqn:He.
  - destruct (string_dec (config.Tool (rtfConfig handler)) "") as [Ht|Ht].
    + rewrite (serve_unconfigured handler r requestRoute s H He Ht).
      repeat split. intros _ Hne. exfalso. exact (Hne Ht).
    + rewrite (serve_not_found handler r requestRoute s H He Ht Hm).
      repeat split.
  - rewrite (serve_disabled handler r requestRoute s H He).
    repeat split. intros Hc. discriminate Hc.
Qed.

(** C7: with an empty tool path a request is served as it is with
    conversion disabled: the same result, the same state and the same
    events up to the wording of the log entry; when the path parses that is
    one call of the 404 handler and no conversion: no temporary file and no
    process. *)
Theorem unconfigured_tool_behaves_as_disabled (unconfigured disabled : Rtf)
    (r : Request) (s : State) :
  config.Tool (rtfConfig unconfigured) = "" ->
  config.Enabled (rtfConfig disabled) = false ->
  fst (serve unconfigured r s) = fst (serve disabled r s)
  /\ observable (snd (serve unconfigured r s)) = observable (snd (serve disabled r s))
  /\ (forall requestRoute,
       route.NewFromRequest (stripRtfSuffix (Vars_path r)) = Ok requestRoute ->
       fst (serve unconfigured r s) = (Next tt, s)
       /\ filter is404 (snd (serve unconfigured r s)) = [Error404]
       /\ existsb touchesTempFile (snd (serve unconfigured r s)) = false
       /\ existsb launchesProcess (snd (serve unconfigured r s)) = false).
Proof.
  intros Ht Hd.
  destruct (route.NewFromRequest (stripRtfSuffix (Vars_path r))) as [rr|e] eqn:H.
  - rewrite (serve_disabled disabled r rr s H Hd).
    destruct (config.Enabled (rtfConfig unconfigured)) eqn:He.
    + rewrite (serve_unconfigured unconfigured r rr s H He Ht).
      repeat split.
    + rewrite (serve_disabled unconfigured r rr s H He).
      repeat split.
  - rewrite (serve_malformed unconfigured r e s H),
            (serve_malformed disabled r e s H).
    split; [reflexivity|]. split; [reflexivity|].
    intros rr Hrr. discriminate Hrr.
Qed.

(** C8: without a conversion template for the host, [convertToHtml] logs
    an error and returns the empty string, and so it does when rendering
    fails; it has no other effect. *)
Theorem convertToHtml_soft_failure (handler : Rtf) (hostname : string)
    (viewModel : viewmodel.ConversionModel) (s : State) :
  (forall e,
      templates.GetSubTemplate hostname templates.ConversionTemplateName = Err e ->
      convertToHtml handler hostname viewModel s
      = (Return "", s,
         [LogError "No template for item of type %q." [viewmodel.Type_ viewModel]]))
  /\ (forall template e,
      templates.GetSubTemplate hostname templates.ConversionTemplateName = Ok template ->
      handlerpkg.renderTemplate viewModel template = Err e ->
      convertToHtml handler hostname viewModel s
      = (Return "", s, [LogError "%s" [e]])).
Proof.
  unfold convertToHtml, bind, emit, return_. split.
  - intros e He. now rewrite He.
  - intros t e Ht He. now rewrite Ht, He.
Qed.

(** [convertToHtml] always returns, touches neither the state nor the file
    system, and launches nothing. *)
Lemma convertToHtml_returns (handler : Rtf) (hostname : string)
    (viewModel : viewmodel.ConversionModel) :
  exists html log,
    (forall s, convertToHtml handler hostname viewModel s = (Return html, s, log))
    /\ existsb launchesProcess log = false
    /\ existsb touchesTempFile log = false.
Proof.
  unfold convertToHtml, bind, emit, return_.
  destruct (templates.GetSubTemplate hostname templates.ConversionTemplateName)
    as [template|e].
  - destruct (handlerpkg.renderTemplate viewModel template) as [text|e];
      repeat eexists.
  - repeat eexists.
Qed.

(** C6: once the gates are passed, the model is found and the HTML file is
    open, the handler starts exactly one child: the configured tool with
    the argument vector [<tool> -s <html file> -o <rtf file>], its standard
    output and error being the parent's; the executable is the tool as
    configured when that has a directory part, and else where the lookup in
    PATH finds it.  Nothing is done between the start and the wait for its
    exit; what follows (opening the output, or the error log) comes after
    the wait. *)
Theorem converter_invocation (handler : Rtf) (r : Request)
    (requestRoute : route.Route) (model : viewmodel.ConversionModel) (s : State) :
  let tool := config.Tool (rtfConfig handler) in
  let htmlFilePath := fsutil.GetTempFileName "html-source" (tempFiles s) ++ ".html" in
  let targetFile := fsutil.GetTempFileName "rtf-target" (S (tempFiles s)) ++ ".rtf" in
  let built := exec.Command tool ["-s"; htmlFilePath; "-o"; targetFile] in
  let cmd := {| exec.Path := exec.Path built;
                exec.Args := [tool; "-s"; htmlFilePath; "-o"; targetFile];
                exec.Dir := "";
                exec.Stdin := None;
                exec.Stdout := Some os.Stdout;
                exec.Stderr := Some os.Stderr;
                exec.lookPathErr := exec.lookPathErr built |} in
  route.NewFromRequest (stripRtfSuffix (Vars_path r)) = Ok requestRoute ->
  config.Enabled (rtfConfig handler) = true ->
  tool <> "" ->
  handlerpkg.GetConversionModel (handlerpkg.getHostnameFromRequest r) requestRoute
  = Some model ->
  fsutil.OpenFile htmlFilePath = None ->
  exists html log post,
    snd (serve handler r s)
    = (headerEvents handlerpkg.DYNAMICCONTENT_CACHEDURATION_SECONDS
       ++ log
       ++ [TempFileName "html-source"; FileOpen htmlFilePath;
           FileWriteString htmlFilePath html; TempFileName "rtf-target";
           CmdStart cmd]
       ++ post)%list
    /\ existsb launchesProcess log = false
    /\ existsb launchesProcess post = false
    /\ (exec.Start cmd = None -> exists rest, post = CmdWait cmd :: rest)
    /\ (forall e, exec.Start cmd = Some e ->
         post = [LogError "Could not run pandoc: %v" [e];
                 FileClose htmlFilePath; BodyClose])
    /\ (forall e, exec.Start cmd = None -> exec.Wait cmd = Some e ->
         post = [CmdWait cmd; LogError "Could not run pandoc: %v" [e];
                 FileClose htmlFilePath; BodyClose])
    /\ (filepath.Base tool <> tool ->
        exec.Path cmd = tool /\ exec.lookPathErr cmd = None)
    /\ (forall lp,
         filepath.Base tool = tool -> exec.LookPath tool = Ok lp ->
         exec.Path cmd = lp /\ exec.lookPathErr cmd = None)
    /\ (forall e,
         filepath.Base tool = tool -> exec.LookPath tool = Err e ->
         exec.Path cmd = tool /\ exec.lookPathErr cmd = Some e).
Proof.
  intros tool htmlFilePath targetFile built cmd H He Ht Hm Ho.
  assert (Hcmd : exec.setStderr
                   (exec.setStdout
                      (exec.Command tool ["-s"; htmlFilePath; "-o"; targetFile])
                      os.Stdout) os.Stderr = cmd)
    by apply Command_streams.
  pose proof (Command_path tool ["-s"; htmlFilePath; "-o"; targetFile]) as Hpath.
  destruct (convertToHtml_returns handler (handlerpkg.getHostnameFromRequest r) model)
    as (html & log & Hc & Hlog & _).
  exists html, log.
  unfold serve, Func.
  unfold call, bind, emit, return_, defer, GetTempFileName, OpenFile, Run, Start,
    Wait, bind, emit, ret.
  unfold stripRtfSuffix in H. unfold tool in Ht.
  rewrite H, He, (tool_configured _ Ht), Hm.
  cbn [negb tempFiles pipes deferred].
  rewrite Hc. cbn [tempFiles pipes deferred].
  unfold htmlFilePath in Ho. rewrite Ho.
  cbn [tempFiles pipes deferred].
  change (exec.setStderr (exec.setStdout (exec.Command _ _) os.Stdout) os.Stderr)
    with (exec.setStderr
            (exec.setStdout
               (exec.Command tool ["-s"; htmlFilePath; "-o"; targetFile])
               os.Stdout) os.Stderr).
  rewrite Hcmd.
  fold htmlFilePath targetFile.
  destruct (exec.Start cmd) as [e1|].
  - cbn. rewrite <- !app_assoc. cbn.
    eexists. split; [reflexivity|]. split; [exact Hlog|]. split; [reflexivity|].
    split; [intros Hx; discriminate Hx|].
    split; [intros e Hx; injection Hx as <-; reflexivity|].
    split; [intros e Hx; discriminate Hx|].
    exact Hpath.
  - destruct (exec.Wait cmd) as [e2|].
    + cbn. rewrite <- !app_assoc. cbn.
      eexists. split; [reflexivity|]. split; [exact Hlog|]. split; [reflexivity|].
      split; [intros _; eexists; reflexivity|].
      split; [intros e Hx; discriminate Hx|].
      split; [intros e _ Hx; injection Hx as <-; reflexivity|].
      exact Hpath.
    + destruct (fsutil.OpenFile targetFile) as [e3|];
        cbn; rewrite <- !app_assoc; cbn;
        (eexists; split; [reflexivity|]; split; [exact Hlog|];
         split; [reflexivity|];
         split; [intros _; eexists; reflexivity|];
         split; [intros e Hx; discriminate Hx|];
         split; [intros e _ Hx; discriminate Hx|];
         exact Hpath).
Qed.

End HandlerFacts.

(** ** The general process primitive *)

Section SplitFacts.

Lemma Split_nonempty (s : string) (sep : ascii) :
  exists w ws, strings.Split s sep = w :: ws.
Proof.
  induction s as [|c rest IH]; simpl.
  - now exists "", [].
  - destruct (Ascii.eqb c sep); [now eexists; eexists|].
    destruct IH as (w & ws & ->). now eexists; eexists.
Qed.

(** Joining the components with the separator gives the text back. *)
Lemma Split_concat (s : string) (sep : ascii) :
  String.concat (String sep "") (strings.Split s sep) = s.
Proof.
  induction s as [|c rest IH]; simpl; [reflexivity|].
  destruct (Split_nonempty rest sep) as (w & ws & Hw).
  rewrite Hw in *.
  destruct (Ascii.eqb_spec c sep) as [->|Hne].
  - change (String.concat (String sep "") ("" :: w :: ws))
      with (String sep (String.concat (String sep "") (w :: ws))).
    now rewrite IH.
  - destruct ws as [|w' ws]; cbn in *; now rewrite IH.
Qed.

(** No component holds the separator. *)
Lemma Split_free (s : string) (sep : ascii) :
  Forall (fun w => existsb (Ascii.eqb sep) (list_ascii_of_string w) = false)
         (strings.Split s sep).
Proof.
  induction s as [|c rest IH]; simpl.
  - now constructor.
  - destruct (Ascii.eqb_spec c sep) as [->|Hne].
    + now constructor.
    + destruct (strings.Split rest sep) as [|w ws].
      * constructor; [|constructor]. simpl.
        destruct (Ascii.eqb_spec sep c); [congruence|reflexivity].
      * inversion IH as [|? ? Hw Hws]; subst. constructor; [|exact Hws].
        simpl. destruct (Ascii.eqb_spec sep c); [congruence|exact Hw].
Qed.

(** [components[1:]] when there are more than one, else the empty slice:
    the components after the first. *)
Lemma arguments_tail (components : list string) :
  (if (1 <? List.length components)%nat then skipn 1 components else [])
  = tl components.
Proof. destruct components as [|w [|w' ws]]; reflexivity. Qed.

End SplitFacts.

Section ProcessFacts.

Context {OS : exec.System}.

(** [getCmd] on a command text that is not empty, by the three ways the
    pipes can come out; [base] is the command before its streams are
    redirected. *)
Lemma getCmd_run (directory commandText commandName : string)
    (arguments : list string) (s : State) :
  commandText <> "" ->
  strings.Split commandText " "%char = commandName :: arguments ->
  let built := exec.Command commandName arguments in
  let base := {| exec.Path := exec.Path built;
                 exec.Args := commandName :: arguments;
                 exec.Dir := directory;
                 exec.Stdin := None;
                 exec.Stdout := None;
                 exec.Stderr := None;
                 exec.lookPathErr := exec.lookPathErr built |} in
  getCmd directory commandText s
  = match exec.Pipe (pipes s) with
    | Some _ => (Return (Some base), stateAfter s 0, [])
    | None =>
        match exec.Pipe (S (pipes s)) with
        | Some _ =>
            (Return (Some (exec.setStdout base (os.PipeWriter (pipes s)))),
             {| tempFiles := tempFiles s; pipes := S (pipes s);
                deferred := deferred s |},
             [OsPipe (pipes s)])
        | None =>
            (Return (Some (exec.setStdin
                             (exec.setStderr
                                (exec.setStdout base (os.PipeWriter (pipes s)))
                                (os.PipeWriter (S (pipes s))))
                             os.Stdin)),
             {| tempFiles := tempFiles s; pipes := S (S (pipes s));
                deferred := deferred s |},
             [OsPipe (pipes s); OsPipe (S (pipes s));
              GoCopy os.Stdout (os.PipeReader (pipes s));
              GoCopy os.Stderr (os.PipeReader (S (pipes s)))])
        end
    end.
Proof.
  intros Hne Hw built base. unfold getCmd.
  destruct (String.eqb_spec commandText "") as [->|_]; [congruence|].
  rewrite arguments_tail, Hw.
  unfold index, bind, call, redirectCommandIO, StdoutPipe, StderrPipe, osPipe,
    bind, ret, emit, return_.
  cbn [nth_error tl]. rewrite (Command_record commandName arguments).
  fold built.
  cbn [exec.Stdout exec.Stderr exec.setDir exec.Path exec.Args exec.Dir
       exec.Stdin exec.lookPathErr tempFiles pipes deferred].
  fold base.
  destruct (exec.Pipe (pipes s)) as [e1|]; cbn; [reflexivity|].
  destruct (exec.Pipe (S (pipes s))) as [e2|]; cbn; reflexivity.
Qed.

(** [getCmd] on a command text that is not empty returns a command. *)
Lemma getCmd_cases (directory commandText : string) (s : State) :
  commandText <> "" ->
  exists commandName arguments cmd s' t,
    strings.Split commandText " "%char = commandName :: arguments
    /\ getCmd directory commandText s = (Return (Some cmd), s', t)
    /\ exec.Path cmd = exec.Path (exec.Command commandName arguments)
    /\ exec.Args cmd = commandName :: arguments
    /\ exec.Dir cmd = directory
    /\ existsb launchesProcess t = false.
Proof.
  intros Hne.
  destruct (Split_nonempty commandText " "%char) as (w & ws & Hw).
  exists w, ws. rewrite (getCmd_run directory commandText w ws s Hne Hw).
  destruct (exec.Pipe (pipes s)) as [e1|].
  - repeat eexists; exact Hw.
  - destruct (exec.Pipe (S (pipes s))) as [e2|]; repeat eexists; exact Hw.
Qed.

(** C9: on the empty command text [getCmd] returns nil and [execute]
    panics in [Start], on the nil pointer; on every other command text
    [getCmd] returns a command and [execute] does not panic: it returns the
    error of [Start] or the result of [Wait]. *)
Theorem execute_safe_iff_command_text (directory : string) (s : State) :
  getCmd directory "" s = (Return None, s, [])
  /\ execute directory "" s
     = (Panic "invalid memory address or nil pointer dereference", s, [])
  /\ (forall commandText,
       commandText <> "" ->
       (exists cmd s' t,
           getCmd directory commandText s = (Return (Some cmd), s', t))
       /\ (exists err s' t,
           execute directory commandText s = (Return err, s', t))).
Proof.
  split; [reflexivity|]. split.
  - unfold execute, bind, call, getCmd, Start, panic, return_. simpl.
    now destruct s.
  - intros commandText Hne. split.
    + destruct (getCmd_cases directory commandText
                  {| tempFiles := tempFiles s; pipes := pipes s; deferred := deferred s |} Hne)
        as (w & ws & cmd & s' & t & _ & Hg & _).
      rewrite state_eta in Hg. now exists cmd, s', t.
    + destruct (getCmd_cases directory commandText
                  {| tempFiles := tempFiles s; pipes := pipes s; deferred := [] |} Hne)
        as (w & ws & cmd & s' & t & _ & Hg & _).
      unfold execute, bind, call, Start, Wait, bind, emit, ret, return_.
      rewrite Hg. cbn.
      destruct (exec.Start cmd) as [e|]; cbn; repeat eexists.
Qed.

(** C4, as amended: for a command text that is not empty, [getCmd] cuts
    the text at every single space character: the components joined by a
    space give the text back and none holds a space; the first is the
    program name, all of them are the argument vector.  The executable is
    the program name as given when it has a directory part, and else where
    the lookup in PATH finds it.  The working directory is the one given;
    when both pipes can be created, the child's output and error go to the
    pipes, two copy tasks are started from the pipes to the parent's output
    and error, and the child's input is the parent's. *)
Theorem getCmd_splits_on_space (directory commandText : string) (s : State) :
  commandText <> "" ->
  exec.Pipe (pipes s) = None ->
  exec.Pipe (S (pipes s)) = None ->
  exists commandName arguments,
    strings.Split commandText " "%char = commandName :: arguments
    /\ String.concat " " (commandName :: arguments) = commandText
    /\ Forall (fun w => existsb (Ascii.eqb " "%char) (list_ascii_of_string w) = false)
              (commandName :: arguments)
    /\ getCmd directory commandText s
       = (Return (Some {| exec.Path :=
                            exec.Path (exec.Command commandName arguments);
                          exec.Args := commandName :: arguments;
                          exec.Dir := directory;
                          exec.Stdin := Some os.Stdin;
                          exec.Stdout := Some (os.PipeWriter (pipes s));
                          exec.Stderr := Some (os.PipeWriter (S (pipes s)));
                          exec.lookPathErr :=
                            exec.lookPathErr (exec.Command commandName arguments) |}),
          {| tempFiles := tempFiles s; pipes := S (S (pipes s));
             deferred := deferred s |},
          [OsPipe (pipes s); OsPipe (S (pipes s));
           GoCopy os.Stdout (os.PipeReader (pipes s));
           GoCopy os.Stderr (os.PipeReader (S (pipes s)))])
    /\ (filepath.Base commandName <> commandName ->
        exec.Path (exec.Command commandName arguments) = commandName
        /\ exec.lookPathErr (exec.Command commandName arguments) = None)
    /\ (forall lp,
         filepath.Base commandName = commandName ->
         exec.LookPath commandName = Ok lp ->
         exec.Path (exec.Command commandName arguments) = lp
         /\ exec.lookPathErr (exec.Command commandName arguments) = None)
    /\ (forall e,
         filepath.Base commandName = commandName ->
         exec.LookPath commandName = Err e ->
         exec.Path (exec.Command commandName arguments) = commandName
         /\ exec.lookPathErr (exec.Command commandName arguments) = Some e).
Proof.
  intros Hne Hp1 Hp2.
  destruct (Split_nonempty commandText " "%char) as (w & ws & Hw).
  exists w, ws. split; [exact Hw|]. split; [|split; [|split]].
  - rewrite <- Hw. apply Split_concat.
  - rewrite <- Hw. apply Split_free.
  - rewrite (getCmd_run directory commandText w ws s Hne Hw), Hp1, Hp2.
    reflexivity.
  - exact (Command_path w ws).
Qed.

End ProcessFacts.

(** ** Concrete runs, with the sample collaborators *)

Module Runs.

Import Sample.
#[local] Existing Instance Sample.routes.
#[local] Existing Instance Sample.provider.
#[local] Existing Instance Sample.files.
#[local] Existing Instance Sample.system.
#[local] Existing Instance Sample.collaborators.

(** [docs/guide/intro.rtf] is stripped to [docs/guide/intro]. *)
Lemma suffix_stripping_witness :
  strings.HasSuffix "docs/guide/intro.rtf" "rtf" = true
  /\ stripRtfSuffix "docs/guide/intro.rtf" = "docs/guide/intro"
  /\ route.NewFromRequest (stripRtfSuffix "docs/guide/intro.rtf")
     = route.NewFromRequest (Spec.removeSuffixManually "docs/guide/intro.rtf").
Proof.
  split; [reflexivity|].
  destruct (suffix_stripping_matches_manual_removal (RP := routes)
              "docs/guide/intro.rtf" eq_refl)
    as (_ & Hparse & Hdot & _).
  split; [exact (Hdot "docs/guide/intro" eq_refl) | exact Hparse].
Defined.

(** An item below the root is named after its last route segment, a root
    item after its title, an item with a malformed route after the
    fallback. *)
Lemma getRichTextFilename_derivation_witness :
  getRichTextFilename Sample.intro = "intro.rtf"
  /\ getRichTextFilename Sample.home = "My Document.rtf"
  /\ strings.TrimSuffix (getRichTextFilename Sample.tabbed) ".rtf" = "document".
Proof.
  split; [|split].
  - apply (proj1 (getRichTextFilename_derivation (RP := routes) Sample.intro)
             "docs/guide/intro" "intro" eq_refl eq_refl).
    discriminate.
  - exact (proj1 (proj2 (getRichTextFilename_derivation (RP := routes) Sample.home))
             "home" "home" "My Document" eq_refl eq_refl eq_refl eq_refl).
  - apply (proj2 (proj2 (getRichTextFilename_derivation Sample.tabbed))).
    left. eexists. reflexivity.
Defined.

(** C1 as stated fails.  For the root item with route [home/] the last
    segment is empty and does not parse, so the code gives the fallback,
    where the derivation by the title gives [My Document.rtf]; and for the
    item whose route does not parse the code gives [document], where the
    stated fallback is [document.rtf]. *)
Lemma getRichTextFilename_not_as_specified :
  (getRichTextFilename Sample.homeSlash = "document"
   /\ Spec.derivedFilename Sample.homeSlash = "My Document.rtf")
  /\ (getRichTextFilename Sample.tabbed = "document"
      /\ Spec.derivedFilename Sample.tabbed = "document.rtf")
  /\ getRichTextFilename Sample.homeSlash <> Spec.derivedFilename Sample.homeSlash
  /\ getRichTextFilename Sample.tabbed <> Spec.derivedFilename Sample.tabbed.
Proof.
  split; [split; reflexivity|]. split; [split; reflexivity|].
  split; discriminate.
Qed.

Lemma level0_filename_witness :
  viewmodel.Level Sample.homeSlash = 0%Z
  /\ getRichTextFilename Sample.homeSlash = "document"
  /\ getRichTextFilename Sample.home = "My Document.rtf".
Proof.
  split; [reflexivity|]. split.
  - exact (proj1 (level0_filename_needs_last_segment (RP := routes)
                    Sample.homeSlash eq_refl)
             "home/" "malformed route" eq_refl eq_refl).
  - exact (proj1 (proj2 (level0_filename_needs_last_segment (RP := routes)
                           Sample.home eq_refl))
             "home" "home" "My Document" eq_refl eq_refl eq_refl).
Defined.

Lemma disabled_conversion_witness :
  config.Enabled (rtfConfig disabled) = false
  /\ route.NewFromRequest (stripRtfSuffix (Vars_path introRequest))
     = Ok "docs/guide/intro"
  /\ filter is404 (snd (serve disabled introRequest Sample.start)) = [Error404]
  /\ existsb launchesProcess (snd (serve disabled introRequest Sample.start)) = false
  /\ existsb touchesTempFile (snd (serve disabled introRequest Sample.start)) = false.
Proof.
  split; [reflexivity|]. split; [reflexivity|].
  destruct (disabled_conversion_yields_404 (RP := routes) (TP := provider) (FS := files)
              (OS := system) (HC := collaborators) disabled introRequest
              "docs/guide/intro" Sample.start eq_refl eq_refl)
    as (_ & H404 & Hrun & Htmp & _).
  exact (conj H404 (conj Hrun Htmp)).
Defined.

Lemma missing_model_witness :
  route.NewFromRequest (stripRtfSuffix (Vars_path otherRequest))
  = Ok "docs/guide/other"
  /\ handlerpkg.GetConversionModel (handlerpkg.getHostnameFromRequest otherRequest)
       "docs/guide/other" = None
  /\ snd (serve enabled otherRequest Sample.start)
     = (headerEvents 0 ++ [Error404; BodyClose])%list.
Proof.
  split; [reflexivity|]. split; [reflexivity|].
  destruct (missing_model_yields_404 (RP := routes) (TP := provider) (FS := files)
              (OS := system) (HC := collaborators) enabled otherRequest
              "docs/guide/other" Sample.start eq_refl eq_refl)
    as (_ & _ & _ & _ & Htrace).
  apply Htrace; [reflexivity | discriminate].
Defined.

Lemma unconfigured_tool_witness :
  config.Tool (rtfConfig unconfigured) = ""
  /\ config.Enabled (rtfConfig disabled) = false
  /\ fst (serve unconfigured introRequest Sample.start)
     = fst (serve disabled introRequest Sample.start)
  /\ observable (snd (serve unconfigured introRequest Sample.start))
     = observable (snd (serve disabled introRequest Sample.start)).
Proof.
  split; [reflexivity|]. split; [reflexivity|].
  destruct (unconfigured_tool_behaves_as_disabled (RP := routes) (TP := provider)
              (FS := files) (OS := system) (HC := collaborators) unconfigured disabled
              introRequest Sample.start eq_refl eq_refl)
    as (Hres & Hobs & _).
  exact (conj Hres Hobs).
Defined.

Lemma convertToHtml_witness :
  templates.GetSubTemplate "nohost" templates.ConversionTemplateName
  = Err "template not found"
  /\ convertToHtml enabled "nohost" Sample.intro Sample.start
     = (Return "", Sample.start,
        [LogError "No template for item of type %q." ["document"]]).
Proof.
  split; [reflexivity|].
  exact (proj1 (convertToHtml_soft_failure (RP := routes) (TP := provider)
                  (HC := collaborators) enabled "nohost"
                  Sample.intro Sample.start)
           "template not found" eq_refl).
Defined.

Lemma converter_invocation_witness :
  exists html log post,
    snd (serve enabled introRequest Sample.start)
    = (headerEvents 0
       ++ log
       ++ [TempFileName "html-source"; FileOpen "/tmp/html-source-.html";
           FileWriteString "/tmp/html-source-.html" html;
           TempFileName "rtf-target";
           CmdStart {| exec.Path := "/usr/bin/pandoc";
                       exec.Args := ["pandoc"; "-s"; "/tmp/html-source-.html";
                                     "-o"; "/tmp/rtf-target-x.rtf"];
                       exec.Dir := "";
                       exec.Stdin := None;
                       exec.Stdout := Some os.Stdout;
                       exec.Stderr := Some os.Stderr;
                       exec.lookPathErr := None |}]
       ++ post)%list
    /\ existsb launchesProcess log = false
    /\ existsb launchesProcess post = false.
Proof.
  destruct (converter_invocation (RP := routes) (TP := provider) (FS := files)
              (OS := system) (HC := collaborators) enabled introRequest
              "docs/guide/intro" Sample.intro Sample.start eq_refl eq_refl)
    as (html & log & post & Htrace & Hlog & Hpost & _);
    [discriminate | reflexivity | reflexivity |].
  exists html, log, post. exact (conj Htrace (conj Hlog Hpost)).
Defined.

Lemma execute_witness :
  exists err s' t, execute "/srv" "ls -l" Sample.start = (Return err, s', t).
Proof.
  apply (proj2 (proj2 (execute_safe_iff_command_text (OS := system) "/srv" Sample.start)) "ls -l").
  discriminate.
Defined.

(** Two spaces in a row give an empty argument; the bare name [ls] is
    looked up and found in [/usr/bin]. *)
Lemma getCmd_witness :
  exists commandName arguments,
    strings.Split "ls -l  /tmp" " "%char = commandName :: arguments
    /\ commandName :: arguments = ["ls"; "-l"; ""; "/tmp"]
    /\ fst (fst (getCmd "/srv" "ls -l  /tmp" Sample.start))
       = Return (Some {| exec.Path := "/usr/bin/ls";
                         exec.Args := commandName :: arguments;
                         exec.Dir := "/srv";
                         exec.Stdin := Some os.Stdin;
                         exec.Stdout := Some (os.PipeWriter 0);
                         exec.Stderr := Some (os.PipeWriter 1);
                         exec.lookPathErr := None |}).
Proof.
  destruct (getCmd_splits_on_space (OS := system) "/srv" "ls -l  /tmp" Sample.start)
    as (w & ws & Hw & _ & _ & Hg & _ & Hfound & _);
    [discriminate | reflexivity | reflexivity |].
  exists w, ws. split; [exact Hw|].
  assert (Hws : w :: ws = ["ls"; "-l"; ""; "/tmp"]) by (rewrite <- Hw; reflexivity).
  split; [exact Hws|].
  injection Hws as Ew Ews. subst w ws.
  rewrite Hg.
  destruct (Hfound "/usr/bin/ls" eq_refl eq_refl) as [-> ->].
  reflexivity.
Defined.

(** C4 as stated fails: a tab is white space, yet the command text
    [ls<TAB>-l] is not split: the whole text is the program name (which no
    lookup finds) and there is no argument. *)
Lemma getCmd_does_not_split_on_tab :
  let commandText := "ls" ++ Sample.tab ++ "-l" in
  fst (fst (getCmd "/srv" commandText Sample.start))
  = Return (Some {| exec.Path := commandText;
                    exec.Args := [commandText];
                    exec.Dir := "/srv";
                    exec.Stdin := Some os.Stdin;
                    exec.Stdout := Some (os.PipeWriter 0);
                    exec.Stderr := Some (os.PipeWriter 1);
                    exec.lookPathErr :=
                      Some "executable file not found in $PATH" |})
  /\ Spec.programAndArguments commandText = Some ("ls", ["-l"])
  /\ Spec.programAndArguments commandText <> Some (commandText, []).
Proof.
  cbv zeta. split; [reflexivity|]. split; [reflexivity|].
  intros H. vm_compute in H. discriminate H.
Qed.

End Runs.

(** * More properties of the handler *)

(** ** The paths through the handler *)

Section HandlerPaths.

Context {RP : route.Package} {TP : templates.Provider} {FS : fsutil.Package}
        {OS : exec.System} {HC : handlerpkg.Collaborators}.

(** [convertToHtml] returns without touching the state; it logs nothing
    when the template is found and rendered, and otherwise logs one error
    and returns the empty string. *)
Lemma convertToHtml_shape (handler : Rtf) (hostname : string)
    (viewModel : viewmodel.ConversionModel) :
  exists html log,
    (forall s, convertToHtml handler hostname viewModel s = (Return html, s, log))
    /\ ((log = []
         /\ exists template,
             templates.GetSubTemplate hostname templates.ConversionTemplateName
             = Ok template
             /\ handlerpkg.renderTemplate viewModel template = Ok html)
        \/ (html = "" /\ exists format args, log = [LogError format args])).
Proof.
  unfold convertToHtml, bind, emit, return_.
  destruct (templates.GetSubTemplate hostname templates.ConversionTemplateName)
    as [template|e] eqn:Ht.
  - destruct (handlerpkg.renderTemplate viewModel template) as [text|e] eqn:Hr.
    + exists text, []. split; [reflexivity|]. left. split; [reflexivity|].
      now exists template.
    + eexists "", _. split; [reflexivity|]. right. split; [reflexivity|].
      now eexists; eexists.
  - eexists "", _. split; [reflexivity|]. right. split; [reflexivity|].
    now eexists; eexists.
Qed.

(** Every request takes one of nine paths; a property of the outcome holds
    for every request once it holds on each of them. *)
Lemma serve_cases (P : Flow unit unit * State * list Event -> Prop)
    (handler : Rtf) (r : Request) (s : State) :
  let headers := headerEvents handlerpkg.DYNAMICCONTENT_CACHEDURATION_SECONDS in
  let hostname := handlerpkg.getHostnameFromRequest r in
  let htmlFilePath := htmlFilePathAt s in
  let targetFile := targetFileAt s in
  let cmd := converterCommand handler s in
  (forall e,
      route.NewFromRequest (stripRtfSuffix (Vars_path r)) = Err e ->
      P (Next tt, s,
         headers ++ [LogError "Unable to get route from request. Error: %s" [e]])%list) ->
  (forall requestRoute,
      route.NewFromRequest (stripRtfSuffix (Vars_path r)) = Ok requestRoute ->
      config.Enabled (rtfConfig handler) = false ->
      P (Next tt, s,
         headers
         ++ [LogWarn "Cannot convert item %q to RTF. RTF conversion is disabled in the config."
               [route.RouteString requestRoute];
             Error404; BodyClose])%list) ->
  (forall requestRoute,
      route.NewFromRequest (stripRtfSuffix (Vars_path r)) = Ok requestRoute ->
      config.Enabled (rtfConfig handler) = true ->
      config.Tool (rtfConfig handler) = "" ->
      P (Next tt, s,
         headers
         ++ [LogWarn "Cannot convert item %q to RTF. There is no rtf conversion tool configured."
               [route.RouteString requestRoute];
             Error404; BodyClose])%list) ->
  (forall requestRoute,
      route.NewFromRequest (stripRtfSuffix (Vars_path r)) = Ok requestRoute ->
      config.Enabled (rtfConfig handler) = true ->
      config.Tool (rtfConfig handler) <> "" ->
      handlerpkg.GetConversionModel hostname requestRoute = None ->
      P (Next tt, s, headers ++ [Error404; BodyClose])%list) ->
  (forall requestRoute model html log,
      route.NewFromRequest (stripRtfSuffix (Vars_path r)) = Ok requestRoute ->
      config.Enabled (rtfConfig handler) = true ->
      config.Tool (rtfConfig handler) <> "" ->
      handlerpkg.GetConversionModel hostname requestRoute = Some model ->
      (forall s', convertToHtml handler hostname model s' = (Return html, s', log)) ->
      (log = []
       /\ exists template,
           templates.GetSubTemplate hostname templates.ConversionTemplateName
           = Ok template
           /\ handlerpkg.renderTemplate model template = Ok html)
      \/ (html = "" /\ exists format args, log = [LogError format args]) ->
      (forall e,
          fsutil.OpenFile htmlFilePath = Some e ->
          P (Next tt, stateAfter s 1,
             headers ++ log
             ++ [TempFileName "html-source"; FileOpen htmlFilePath;
                 LogError "Cannot open HTML file for writing. Error: %s" [e];
                 BodyClose])%list)
      /\ (forall e,
          fsutil.OpenFile htmlFilePath = None ->
          exec.Start cmd = Some e ->
          P (Next tt, stateAfter s 2,
             headers ++ log
             ++ [TempFileName "html-source"; FileOpen htmlFilePath;
                 FileWriteString htmlFilePath html; TempFileName "rtf-target";
                 CmdStart cmd;
                 LogError "Could not run pandoc: %v" [e];
                 FileClose htmlFilePath; BodyClose])%list)
      /\ (forall e,
          fsutil.OpenFile htmlFilePath = None ->
          exec.Start cmd = None ->
          exec.Wait cmd = Some e ->
          P (Next tt, stateAfter s 2,
             headers ++ log
             ++ [TempFileName "html-source"; FileOpen htmlFilePath;
                 FileWriteString htmlFilePath html; TempFileName "rtf-target";
                 CmdStart cmd; CmdWait cmd;
                 LogError "Could not run pandoc: %v" [e];
                 FileClose htmlFilePath; BodyClose])%list)
      /\ (forall e,
          fsutil.OpenFile htmlFilePath = None ->
          exec.Start cmd = None ->
          exec.Wait cmd = None ->
          fsutil.OpenFile targetFile = Some e ->
          P (Next tt, stateAfter s 2,
             headers ++ log
             ++ [TempFileName "html-source"; FileOpen htmlFilePath;
                 FileWriteString htmlFilePath html; TempFileName "rtf-target";
                 CmdStart cmd; CmdWait cmd; FileOpen targetFile;
                 LogError "Cannot open target file. Error: %s" [e];
                 FileClose htmlFilePath; BodyClose])%list)
      /\ (fsutil.OpenFile htmlFilePath = None ->
          exec.Start cmd = None ->
          exec.Wait cmd = None ->
          fsutil.OpenFile targetFile = None ->
          P (Next tt, stateAfter s 2,
             headers ++ log
             ++ [TempFileName "html-source"; FileOpen htmlFilePath;
                 FileWriteString htmlFilePath html; TempFileName "rtf-target";
                 CmdStart cmd; CmdWait cmd; FileOpen targetFile;
                 HeaderAdd "Content-Disposition"
                   ("attachment; filename=" ++ dquote
                    ++ getRichTextFilename model ++ dquote);
                 CopyToResponse targetFile;
                 FileClose targetFile; FileClose htmlFilePath; BodyClose])%list)) ->
  P (serve handler r s).
Proof.
  intros headers hostname htmlFilePath targetFile cmd
         Hmal Hdis Hunc Hnf Hconv.
  destruct (route.NewFromRequest (stripRtfSuffix (Vars_path r)))
    as [requestRoute|e] eqn:Hparse.
  2:{ rewrite (serve_malformed handler r e s Hparse). exact (Hmal e eq_refl). }
  destruct (config.Enabled (rtfConfig handler)) eqn:He.
  2:{ rewrite (serve_disabled handler r requestRoute s Hparse He).
      exact (Hdis requestRoute eq_refl eq_refl). }
  destruct (string_dec (config.Tool (rtfConfig handler)) "") as [Ht|Ht].
  { rewrite (serve_unconfigured handler r requestRoute s Hparse He Ht).
    exact (Hunc requestRoute eq_refl eq_refl Ht). }
  destruct (handlerpkg.GetConversionModel hostname requestRoute)
    as [model|] eqn:Hm.
  2:{ rewrite (serve_not_found handler r requestRoute s Hparse He Ht Hm).
      exact (Hnf requestRoute eq_refl eq_refl Ht Hm). }
  destruct (convertToHtml_shape handler hostname model)
    as (html & log & Hc & Hshape).
  destruct (Hconv requestRoute model html log eq_refl eq_refl Ht Hm Hc Hshape)
    as (Hopen & Hstart & Hwait & Htarget & Hok).
  clear Hmal Hdis Hunc Hnf Hconv.
  unfold serve, Func.
  unfold call, bind, emit, return_, defer, GetTempFileName, OpenFile, Run, Start,
    Wait, bind, emit, ret.
  unfold stripRtfSuffix in Hparse. fold hostname.
  rewrite Hparse, He, (tool_configured _ Ht), Hm.
  cbn [negb tempFiles pipes deferred].
  rewrite Hc. cbn [tempFiles pipes deferred].
  change (fsutil.GetTempFileName "html-source" (tempFiles s) ++ ".html")
    with htmlFilePath.
  destruct (fsutil.OpenFile htmlFilePath) as [e1|].
  { specialize (Hopen e1 eq_refl). cbn. rewrite <- !app_assoc. exact Hopen. }
  cbn [tempFiles pipes deferred].
  change (fsutil.GetTempFileName "rtf-target" (S (tempFiles s)) ++ ".rtf")
    with targetFile.
  change (exec.setStderr (exec.setStdout (exec.Command _ _) os.Stdout) os.Stderr)
    with cmd.
  destruct (exec.Start cmd) as [e2|].
  { specialize (Hstart e2 eq_refl eq_refl). cbn. rewrite <- !app_assoc.
    exact Hstart. }
  destruct (exec.Wait cmd) as [e3|].
  { specialize (Hwait e3 eq_refl eq_refl eq_refl). cbn. rewrite <- !app_assoc.
    exact Hwait. }
  destruct (fsutil.OpenFile targetFile) as [e4|].
  { specialize (Htarget e4 eq_refl eq_refl eq_refl eq_refl). cbn.
    rewrite <- !app_assoc. exact Htarget. }
  specialize (Hok eq_refl eq_refl eq_refl eq_refl). cbn.
  rewrite <- !app_assoc. exact Hok.
Qed.

Ltac by_paths handler r s :=
  pattern (serve handler r s); apply serve_cases; cbv zeta;
  [ intros e Hparse
  | intros requestRoute Hparse Henabled
  | intros requestRoute Hparse Henabled Htool
  | intros requestRoute Hparse Henabled Htool Hmodel
  | intros requestRoute model html log Hparse Henabled Htool Hmodel Hconvert
           [(-> & template & Htemplate & Hrender)
           |(-> & format & args & ->)];
    (split; [intros e Hopen
            |split; [intros e Hopen Hstart
                    |split; [intros e Hopen Hstart Hwait
                            |split; [intros e Hopen Hstart Hwait Htarget
                                    |intros Hopen Hstart Hwait Htarget]]]]) ].

(** X1: the three header calls, with the content type [application/rtf],
    come first on every request, whatever its outcome: also when the answer
    is the 404 page or nothing at all. *)
Theorem headers_set_on_every_request (handler : Rtf) (r : Request) (s : State) :
  exists rest,
    snd (serve handler r s)
    = (headerEvents handlerpkg.DYNAMICCONTENT_CACHEDURATION_SECONDS ++ rest)%list
    /\ existsb (fun e => match e with
                         | HeaderContentType _ | HeaderCache _
                         | HeaderVaryAcceptEncoding => true
                         | _ => false
                         end) rest = false.
Proof.
  by_paths handler r s; cbn [snd]; eexists; (split; [reflexivity|reflexivity]).
Qed.

(** X2: a request whose path does not parse is dropped before the
    configuration is read: every handler logs the same error and returns;
    the 404 handler is not called and the request body is not closed, the
    deferred close being registered after the parse only. *)
Theorem malformed_route_aborts (handler other : Rtf) (r : Request) (e : error)
    (s : State) :
  route.NewFromRequest (stripRtfSuffix (Vars_path r)) = Err e ->
  serve handler r s
  = (Next tt, s,
     headerEvents handlerpkg.DYNAMICCONTENT_CACHEDURATION_SECONDS
     ++ [LogError "Unable to get route from request. Error: %s" [e]])%list
  /\ serve other r s = serve handler r s
  /\ existsb is404 (snd (serve handler r s)) = false
  /\ existsb isClose (snd (serve handler r s)) = false.
Proof.
  intros H.
  rewrite (serve_malformed handler r e s H), (serve_malformed other r e s H).
  repeat split.
Qed.

Ltac keep_names := cbn -[htmlFilePathAt targetFileAt converterCommand].

(** X3: once the path has parsed, every way out of the handler ends with
    the deferred calls: each file that was opened is closed, the latest
    first, and then the request body; nothing is closed before that. *)
Theorem files_closed_on_every_path (handler : Rtf) (r : Request)
    (rr : route.Route) (s : State) :
  route.NewFromRequest (stripRtfSuffix (Vars_path r)) = Ok rr ->
  exists body,
    snd (serve handler r s)
    = (body ++ map FileClose (rev (openedFiles body)) ++ [BodyClose])%list
    /\ existsb isClose body = false.
Proof.
  intros Hrr.
  by_paths handler r s; [congruence | ..]; cbn [snd];
    match goal with
    | |- exists body, ?t = _ /\ _ =>
        exists (filter (fun ev => negb (isClose ev)) t)
    end;
    keep_names; rewrite ?Hopen, ?Htarget; keep_names;
    (split; reflexivity).
Qed.

(** X4: the converted file is copied to the response exactly when every
    step before succeeded: the path parses, conversion is enabled, a tool is
    configured, the model is found, the HTML file opens, the child starts
    and exits without error, and the output file opens. *)
Theorem response_iff_every_step_succeeds (handler : Rtf) (r : Request) (s : State) :
  existsb isCopy (snd (serve handler r s)) = true
  <-> exists rr m,
        route.NewFromRequest (stripRtfSuffix (Vars_path r)) = Ok rr
        /\ config.Enabled (rtfConfig handler) = true
        /\ config.Tool (rtfConfig handler) <> ""
        /\ handlerpkg.GetConversionModel (handlerpkg.getHostnameFromRequest r) rr
           = Some m
        /\ fsutil.OpenFile (htmlFilePathAt s) = None
        /\ exec.Start (converterCommand handler s) = None
        /\ exec.Wait (converterCommand handler s) = None
        /\ fsutil.OpenFile (targetFileAt s) = None.
Proof.
  by_paths handler r s; keep_names;
    (split;
     [ intros Hcopy; try discriminate Hcopy;
       exists requestRoute, model; repeat split; assumption
     | intros (rr & m & H1 & H2 & H3 & H4 & H5 & H6 & H7 & H8);
       try reflexivity; congruence ]).
Qed.

(** X5: the whole of a successful request: the rendered HTML is written to
    the first temporary file, the tool runs on it, and then, in this order,
    the [Content-Disposition] header names the download after
    [getRichTextFilename], the output file is copied to the response, and
    the two files and the body are closed. *)
Theorem successful_conversion (handler : Rtf) (r : Request) (rr : route.Route)
    (m : viewmodel.ConversionModel) (s : State) :
  route.NewFromRequest (stripRtfSuffix (Vars_path r)) = Ok rr ->
  config.Enabled (rtfConfig handler) = true ->
  config.Tool (rtfConfig handler) <> "" ->
  handlerpkg.GetConversionModel (handlerpkg.getHostnameFromRequest r) rr = Some m ->
  fsutil.OpenFile (htmlFilePathAt s) = None ->
  exec.Start (converterCommand handler s) = None ->
  exec.Wait (converterCommand handler s) = None ->
  fsutil.OpenFile (targetFileAt s) = None ->
  exists html log,
    (forall s', convertToHtml handler (handlerpkg.getHostnameFromRequest r) m s'
                = (Return html, s', log))
    /\ serve handler r s
       = (Next tt, stateAfter s 2,
          headerEvents handlerpkg.DYNAMICCONTENT_CACHEDURATION_SECONDS
          ++ log
          ++ [TempFileName "html-source"; FileOpen (htmlFilePathAt s);
              FileWriteString (htmlFilePathAt s) html;
              TempFileName "rtf-target";
              CmdStart (converterCommand handler s);
              CmdWait (converterCommand handler s);
              FileOpen (targetFileAt s);
              HeaderAdd "Content-Disposition"
                ("attachment; filename=" ++ dquote
                 ++ getRichTextFilename m ++ dquote);
              CopyToResponse (targetFileAt s);
              FileClose (targetFileAt s); FileClose (htmlFilePathAt s);
              BodyClose])%list.
Proof.
  intros H1 H2 H3 H4 H5 H6 H7 H8.
  by_paths handler r s; try congruence;
    (assert (requestRoute = rr) by congruence; subst requestRoute;
     assert (model = m) by congruence; subst model;
     eexists; eexists; split; [exact Hconvert | reflexivity]).
Qed.

Lemma convertToHtml_no_template (handler : Rtf) (hostname : string)
    (viewModel : viewmodel.ConversionModel) (e : error) (s : State) :
  templates.GetSubTemplate hostname templates.ConversionTemplateName = Err e ->
  convertToHtml handler hostname viewModel s
  = (Return "", s,
     [LogError "No template for item of type %q." [viewmodel.Type_ viewModel]]).
Proof.
  intros H. unfold convertToHtml, bind, emit, return_. now rewrite H.
Qed.

(** X6: a missing template does not stop the request: the error is logged,
    the empty string is written to the HTML file, and the tool is started
    on that empty file all the same. *)
Theorem missing_template_still_converts (handler : Rtf) (r : Request)
    (rr : route.Route) (m : viewmodel.ConversionModel) (err : error) (s : State) :
  route.NewFromRequest (stripRtfSuffix (Vars_path r)) = Ok rr ->
  config.Enabled (rtfConfig handler) = true ->
  config.Tool (rtfConfig handler) <> "" ->
  handlerpkg.GetConversionModel (handlerpkg.getHostnameFromRequest r) rr = Some m ->
  templates.GetSubTemplate (handlerpkg.getHostnameFromRequest r)
    templates.ConversionTemplateName = Err err ->
  fsutil.OpenFile (htmlFilePathAt s) = None ->
  exists post,
    snd (serve handler r s)
    = (headerEvents handlerpkg.DYNAMICCONTENT_CACHEDURATION_SECONDS
       ++ [LogError "No template for item of type %q." [viewmodel.Type_ m];
           TempFileName "html-source"; FileOpen (htmlFilePathAt s);
           FileWriteString (htmlFilePathAt s) "";
           TempFileName "rtf-target";
           CmdStart (converterCommand handler s)]
       ++ post)%list.
Proof.
  intros H1 H2 H3 H4 H5 H6.
  by_paths handler r s; try congruence;
    (assert (requestRoute = rr) by congruence; subst requestRoute;
     assert (model = m) by congruence; subst model;
     pose proof (Hconvert s) as Hrun;
     rewrite (convertToHtml_no_template handler _ m err s H5) in Hrun;
     injection Hrun as <- <-;
     cbn [snd]; eexists; keep_names; reflexivity).
Qed.

(** X7: the 404 handler and the conversion exclude each other: when the
    404 handler is called it is called once, and then no temporary file is
    named, opened or written, no process is started, no error is logged and
    nothing is added to or copied into the response. *)
Theorem not_found_excludes_conversion (handler : Rtf) (r : Request) (s : State) :
  existsb is404 (snd (serve handler r s)) = true ->
  filter is404 (snd (serve handler r s)) = [Error404]
  /\ existsb touchesTempFile (snd (serve handler r s)) = false
  /\ existsb launchesProcess (snd (serve handler r s)) = false
  /\ existsb isLogError (snd (serve handler r s)) = false
  /\ existsb isDisposition (snd (serve handler r s)) = false
  /\ existsb isCopy (snd (serve handler r s)) = false.
Proof.
  by_paths handler r s; keep_names; intros H404;
    try discriminate H404; repeat split.
Qed.

(** The command of the handler, field by field: only [Path] and the kept
    error depend on the lookup of the tool. *)
Lemma converterCommand_record (handler : Rtf) (s : State) :
  let tool := config.Tool (rtfConfig handler) in
  let built := exec.Command tool ["-s"; htmlFilePathAt s; "-o"; targetFileAt s] in
  converterCommand handler s
  = {| exec.Path := exec.Path built;
       exec.Args := [tool; "-s"; htmlFilePathAt s; "-o"; targetFileAt s];
       exec.Dir := "";
       exec.Stdin := None;
       exec.Stdout := Some os.Stdout;
       exec.Stderr := Some os.Stderr;
       exec.lookPathErr := exec.lookPathErr built |}.
Proof. cbv zeta. unfold converterCommand. apply Command_streams. Qed.

(** X8: a request starts at most one child process, and it is the command
    the handler builds from the configured tool: its argument vector is the
    tool, [-s], the HTML file, [-o], the RTF file, its output and error are
    the parent's, and no standard input is connected to it; the handler
    creates no pipe and no copy task. *)
Theorem at_most_one_child (handler : Rtf) (r : Request) (s : State) :
  (forall c, In (CmdStart c) (snd (serve handler r s)) ->
             c = converterCommand handler s)
  /\ List.length (filter launchesProcess (snd (serve handler r s))) <= 1
  /\ existsb usesPipe (snd (serve handler r s)) = false
  /\ exec.Stdin (converterCommand handler s) = None
  /\ exec.Args (converterCommand handler s)
     = [config.Tool (rtfConfig handler); "-s"; htmlFilePathAt s;
        "-o"; targetFileAt s]
  /\ exec.Stdout (converterCommand handler s) = Some os.Stdout
  /\ exec.Stderr (converterCommand handler s) = Some os.Stderr.
Proof.
  assert (Hfields :
            exec.Stdin (converterCommand handler s) = None
            /\ exec.Args (converterCommand handler s)
               = [config.Tool (rtfConfig handler); "-s"; htmlFilePathAt s;
                  "-o"; targetFileAt s]
            /\ exec.Stdout (converterCommand handler s) = Some os.Stdout
            /\ exec.Stderr (converterCommand handler s) = Some os.Stderr).
  { rewrite (converterCommand_record handler s). repeat split. }
  by_paths handler r s; keep_names;
    (split;
     [ intros c Hin; repeat destruct Hin as [Hin|Hin];
       try discriminate Hin; try contradiction;
       injection Hin as <-; reflexivity
     | split; [auto | split; [reflexivity | exact Hfields]] ]).
Qed.

(** X9: once the path has parsed, a warning is logged exactly when
    conversion is disabled or no tool is configured; a missing model is
    not logged at all. *)
Theorem warning_iff_policy_gate (handler : Rtf) (r : Request)
    (rr : route.Route) (s : State) :
  route.NewFromRequest (stripRtfSuffix (Vars_path r)) = Ok rr ->
  (existsb isLogWarn (snd (serve handler r s)) = true
   <-> config.Enabled (rtfConfig handler) = false
       \/ config.Tool (rtfConfig handler) = "")
  /\ (handlerpkg.GetConversionModel (handlerpkg.getHostnameFromRequest r) rr = None ->
      config.Enabled (rtfConfig handler) = true ->
      config.Tool (rtfConfig handler) <> "" ->
      existsb isLogWarn (snd (serve handler r s)) = false
      /\ existsb isLogError (snd (serve handler r s)) = false).
Proof.
  intros Hrr.
  by_paths handler r s; [congruence | ..]; keep_names;
    (split;
     [ split;
       [ intros Hw; try discriminate Hw; auto
       | intros [Hd|Hd]; try reflexivity; congruence ]
     | intros Hnone Hon Hcfg; try (split; reflexivity); congruence ]).
Qed.

End HandlerPaths.

(** ** More properties of the process primitive and of the names *)

Section SplitMore.

Lemma Split_length (s : string) (sep : ascii) :
  List.length (strings.Split s sep)
  = S (count_occ ascii_dec (list_ascii_of_string s) sep).
Proof.
  induction s as [|c rest IH]; [reflexivity|].
  cbn [strings.Split list_ascii_of_string].
  destruct (Ascii.eqb_spec c sep) as [->|Hne].
  - rewrite count_occ_cons_eq by reflexivity. cbn [List.length]. now rewrite IH.
  - rewrite count_occ_cons_neq by exact Hne.
    destruct (Split_nonempty rest sep) as (w & ws & Hw).
    rewrite Hw in *. exact IH.
Qed.

Lemma Split_word (w : string) (sep : ascii) :
  existsb (Ascii.eqb sep) (list_ascii_of_string w) = false ->
  strings.Split w sep = [w].
Proof.
  induction w as [|c w IH]; [reflexivity|].
  cbn [list_ascii_of_string existsb strings.Split]. intros H.
  apply orb_false_iff in H. destruct H as [Hc Hw].
  rewrite Ascii.eqb_sym, Hc. now rewrite (IH Hw).
Qed.

Lemma Split_word_then (w r : string) (sep : ascii) :
  existsb (Ascii.eqb sep) (list_ascii_of_string w) = false ->
  strings.Split (w ++ String sep r) sep = w :: strings.Split r sep.
Proof.
  induction w as [|c w IH].
  - intros _. cbn. now rewrite Ascii.eqb_refl.
  - cbn [list_ascii_of_string existsb]. intros H.
    apply orb_false_iff in H. destruct H as [Hc Hw].
    cbn [String.append strings.Split].
    rewrite Ascii.eqb_sym, Hc. now rewrite (IH Hw).
Qed.

(** Words without the separator, joined by it, split into the words. *)
Lemma Split_joined (ws : list string) (sep : ascii) :
  ws <> [] ->
  Forall (fun w => existsb (Ascii.eqb sep) (list_ascii_of_string w) = false) ws ->
  strings.Split (String.concat (String sep "") ws) sep = ws.
Proof.
  induction ws as [|w ws IH]; [congruence|].
  intros _ Hall. inversion Hall as [|? ? Hw Hws]; subst.
  destruct ws as [|w2 ws].
  - cbn [String.concat]. now apply Split_word.
  - change (String.concat (String sep "") (w :: w2 :: ws))
      with (w ++ String sep (String.concat (String sep "") (w2 :: ws))).
    rewrite (Split_word_then _ _ _ Hw). f_equal. apply IH; [discriminate|exact Hws].
Qed.

(** What [TrimSuffix] takes away is the suffix or nothing. *)
Lemma TrimSuffix_split (s suffix : string) :
  (strings.HasSuffix s suffix = true /\ s = strings.TrimSuffix s suffix ++ suffix)
  \/ (strings.HasSuffix s suffix = false /\ strings.TrimSuffix s suffix = s).
Proof.
  destruct (strings.HasSuffix s suffix) eqn:H.
  - left. split; [reflexivity|]. unfold strings.TrimSuffix. rewrite H.
    now apply HasSuffix_elim.
  - right. split; [reflexivity|]. now apply TrimSuffix_absent.
Qed.

Lemma append_empty_r (s : string) : s ++ "" = s.
Proof. induction s as [|c s IH]; cbn; [reflexivity | now rewrite IH]. Qed.

End SplitMore.

Section NamesMore.

Context {RP : route.Package}.

(** X10: what the handler takes off the path is one of four endings:
    nothing, a dot, [rtf] or [.rtf]; the path is left as it is exactly when
    it ends neither with [rtf] nor with a dot. *)
Theorem stripRtfSuffix_removed_ending (p : string) :
  (exists ending,
      p = stripRtfSuffix p ++ ending
      /\ (ending = "" \/ ending = "." \/ ending = "rtf" \/ ending = ".rtf"))
  /\ (stripRtfSuffix p = p
      <-> strings.HasSuffix p "rtf" = false /\ strings.HasSuffix p "." = false).
Proof.
  unfold stripRtfSuffix.
  destruct (TrimSuffix_split p "rtf") as [[Hr Hp]|[Hr Hp]];
    destruct (TrimSuffix_split (strings.TrimSuffix p "rtf") ".")
      as [[Hd Hq]|[Hd Hq]];
    remember (strings.TrimSuffix p "rtf") as a eqn:Ea;
    remember (strings.TrimSuffix a ".") as b eqn:Eb;
    clear Ea Eb;
    pose proof (f_equal String.length Hp) as Lp;
    pose proof (f_equal String.length Hq) as Lq;
    rewrite ?length_append in Lp; rewrite ?length_append in Lq;
    cbn in Lp; cbn in Lq.
  - split.
    + exists ".rtf". split; [|auto].
      rewrite Hp at 1. rewrite Hq at 1. now rewrite append_assoc.
    + split; [|intros [H _]; congruence].
      intros Heq. apply (f_equal String.length) in Heq. exfalso. lia.
  - split.
    + exists "rtf". split; [|auto]. rewrite Hq. exact Hp.
    + split; [|intros [H _]; congruence].
      intros Heq. apply (f_equal String.length) in Heq. exfalso. lia.
  - split.
    + exists ".". split; [|auto]. rewrite <- Hp at 1. exact Hq.
    + split; [|intros [_ H]; rewrite Hp in Hd; congruence].
      intros Heq. apply (f_equal String.length) in Heq. exfalso. lia.
  - split.
    + exists "". split; [|auto]. now rewrite Hq, Hp, append_empty_r.
    + split; [intros _; rewrite Hp in Hd; now split
             | intros _; now rewrite Hq, Hp].
Qed.

(** X11: the file name is the word [document] or ends with [.rtf]; it is
    never empty. *)
Theorem getRichTextFilename_shape (model : viewmodel.ConversionModel) :
  (getRichTextFilename model = "document"
   \/ exists fileNameRoute,
        getRichTextFilename model = route.Value fileNameRoute ++ ".rtf")
  /\ (getRichTextFilename model = "document"
      \/ strings.HasSuffix (getRichTextFilename model) ".rtf" = true)
  /\ 4 <= String.length (getRichTextFilename model).
Proof.
  assert (H : getRichTextFilename model = "document"
              \/ exists fileNameRoute,
                   getRichTextFilename model = route.Value fileNameRoute ++ ".rtf").
  { unfold getRichTextFilename.
    destruct (route.NewFromRequest (viewmodel.Route model)) as [o|]; [|now left].
    destruct (route.NewFromRequest (route.LastComponentName o)) as [f|]; [|now left].
    destruct (viewmodel.Level model =? 0)%Z.
    - destruct (route.NewFromRequest (viewmodel.Title model)) as [t|]; [|now left].
      right. now exists t.
    - right. now exists f. }
  split; [exact H|].
  destruct H as [->|[f ->]].
  - split; [now left | cbn; lia].
  - split; [right; apply HasSuffix_append|].
    rewrite length_append. cbn. lia.
Qed.

(** X12: below the root the title plays no part: two items with the same
    route and levels other than 0 get the same file name.  At the root the
    text of the route plays none beyond having to parse: two root items with
    the same title whose routes and last segments parse get the same file
    name. *)
Theorem getRichTextFilename_inputs (m1 m2 : viewmodel.ConversionModel) :
  (viewmodel.Route m1 = viewmodel.Route m2 ->
   viewmodel.Level m1 <> 0%Z -> viewmodel.Level m2 <> 0%Z ->
   getRichTextFilename m1 = getRichTextFilename m2)
  /\ (forall r1 r2 l1 l2,
       viewmodel.Title m1 = viewmodel.Title m2 ->
       viewmodel.Level m1 = 0%Z -> viewmodel.Level m2 = 0%Z ->
       route.NewFromRequest (viewmodel.Route m1) = Ok r1 ->
       route.NewFromRequest (viewmodel.Route m2) = Ok r2 ->
       route.NewFromRequest (route.LastComponentName r1) = Ok l1 ->
       route.NewFromRequest (route.LastComponentName r2) = Ok l2 ->
       getRichTextFilename m1 = getRichTextFilename m2).
Proof.
  unfold getRichTextFilename. split.
  - intros Hr H1 H2. apply Z.eqb_neq in H1, H2. now rewrite Hr, H1, H2.
  - intros r1 r2 l1 l2 Ht H1 H2 Hr1 Hr2 Hl1 Hl2.
    now rewrite Hr1, Hr2, Hl1, Hl2, H1, H2, Ht.
Qed.

End NamesMore.

Section ProcessMore.

Context {OS : exec.System}.

(** X13: [getCmd] drops the error of [redirectCommandIO].  When the first
    pipe cannot be created the command is returned with none of its streams
    connected; when the second cannot, its output is the first pipe, which
    no copy task reads, and its error and input are not connected.  In both
    cases the argument vector, the directory and the looked-up executable
    are as without the failure. *)
Theorem getCmd_drops_pipe_errors (directory commandText : string) (s : State) :
  commandText <> "" ->
  exists commandName arguments,
    strings.Split commandText " "%char = commandName :: arguments
    /\ (forall e,
         exec.Pipe (pipes s) = Some e ->
         getCmd directory commandText s
         = (Return (Some {| exec.Path :=
                              exec.Path (exec.Command commandName arguments);
                            exec.Args := commandName :: arguments;
                            exec.Dir := directory;
                            exec.Stdin := None;
                            exec.Stdout := None;
                            exec.Stderr := None;
                            exec.lookPathErr :=
                              exec.lookPathErr
                                (exec.Command commandName arguments) |}),
            stateAfter s 0, []))
    /\ (forall e,
         exec.Pipe (pipes s) = None ->
         exec.Pipe (S (pipes s)) = Some e ->
         getCmd directory commandText s
         = (Return (Some {| exec.Path :=
                              exec.Path (exec.Command commandName arguments);
                            exec.Args := commandName :: arguments;
                            exec.Dir := directory;
                            exec.Stdin := None;
                            exec.Stdout := Some (os.PipeWriter (pipes s));
                            exec.Stderr := None;
                            exec.lookPathErr :=
                              exec.lookPathErr
                                (exec.Command commandName arguments) |}),
            {| tempFiles := tempFiles s; pipes := S (pipes s);
               deferred := deferred s |},
            [OsPipe (pipes s)])).
Proof.
  intros Hne.
  destruct (Split_nonempty commandText " "%char) as (w & ws & Hw).
  exists w, ws. split; [exact Hw|].
  rewrite (getCmd_run directory commandText w ws s Hne Hw).
  split.
  - intros e He. rewrite He. reflexivity.
  - intros e H1 H2. rewrite H1, H2. reflexivity.
Qed.

(** X14: [execute] on a command text that is not empty: the command of
    [getCmd] is started after the pipes are set up; when the start fails its
    error is the result and there is no wait; otherwise the result is that
    of the wait. *)
Theorem execute_result (directory commandText : string) (s : State) :
  commandText <> "" ->
  exists cmd s' setup,
    getCmd directory commandText s = (Return (Some cmd), s', setup)
    /\ execute directory commandText s
       = (Return (match exec.Start cmd with
                  | Some e => Some e
                  | None => exec.Wait cmd
                  end),
          s',
          setup ++ CmdStart cmd
                   :: match exec.Start cmd with
                      | Some _ => []
                      | None => [CmdWait cmd]
                      end)%list.
Proof.
  intros Hne.
  destruct (Split_nonempty commandText " "%char) as (w & ws & Hw).
  unfold execute, bind, call, Start, Wait, bind, ret, emit, return_.
  rewrite !(getCmd_run directory commandText w ws _ Hne Hw).
  cbn [tempFiles pipes deferred].
  destruct (exec.Pipe (pipes s)) as [e1|];
    [|destruct (exec.Pipe (S (pipes s))) as [e2|]];
    (eexists; eexists; eexists; split; [reflexivity|];
     match goal with
     | |- context [exec.Start ?c] => destruct (exec.Start c)
     end; reflexivity).
Qed.

(** X15: the argument vector is the list of the components of the command
    text: it has one entry more than the text has spaces, and its first
    entry is the program name as it is written in the text; the working
    directory is the one given. *)
Theorem getCmd_argument_count (directory commandText : string) (s : State) :
  commandText <> "" ->
  exists cmd s' t,
    getCmd directory commandText s = (Return (Some cmd), s', t)
    /\ exec.Args cmd = strings.Split commandText " "%char
    /\ List.length (exec.Args cmd)
       = S (count_occ ascii_dec (list_ascii_of_string commandText) " "%char)
    /\ exec.Dir cmd = directory.
Proof.
  intros Hne.
  destruct (getCmd_cases directory commandText s Hne)
    as (w & ws & cmd & s' & t & Hw & Hg & _ & Hargs & Hdir & _).
  exists cmd, s', t. split; [exact Hg|].
  rewrite Hargs, <- Hw. split; [reflexivity|].
  split; [apply Split_length | exact Hdir].
Qed.

(** X16: a command line made of words without spaces, joined by single
    spaces, is taken apart into these words: all of them are the argument
    vector, and the first is the program, which is run as given when it has
    a directory part and from where the lookup finds it when it has none. *)
Theorem getCmd_of_joined_words (directory name : string) (arguments : list string)
    (s : State) :
  Forall (fun w => existsb (Ascii.eqb " "%char) (list_ascii_of_string w) = false)
         (name :: arguments) ->
  String.concat " " (name :: arguments) <> "" ->
  exists cmd s' t,
    getCmd directory (String.concat " " (name :: arguments)) s
    = (Return (Some cmd), s', t)
    /\ exec.Args cmd = name :: arguments
    /\ (filepath.Base name <> name -> exec.Path cmd = name)
    /\ (forall lp,
         filepath.Base name = name -> exec.LookPath name = Ok lp ->
         exec.Path cmd = lp)
    /\ (forall e,
         filepath.Base name = name -> exec.LookPath name = Err e ->
         exec.Path cmd = name).
Proof.
  intros Hwords Hne.
  destruct (getCmd_cases directory _ s Hne)
    as (w & ws & cmd & s' & t & Hw & Hg & Hpath & Hargs & _).
  rewrite (Split_joined (name :: arguments) " "%char) in Hw
    by (discriminate || exact Hwords).
  injection Hw as <- <-.
  exists cmd, s', t. split; [exact Hg|]. split; [exact Hargs|].
  rewrite Hpath.
  destruct (Command_path name arguments) as (H1 & H2 & H3).
  split; [intros H; apply (H1 H)|].
  split; [intros lp Hb Hl; apply (H2 lp Hb Hl) | intros e Hb Hl; apply (H3 e Hb Hl)].
Qed.

(** X17: a command text that begins with a space has the empty string as
    its program name, and one that ends with a space has the empty string as
    its last argument. *)
Theorem getCmd_outer_spaces (directory rest : string) (s : State) :
  (exists cmd s' t,
      getCmd directory (String " "%char rest) s = (Return (Some cmd), s', t)
      /\ exec.Path cmd = "")
  /\ (exists cmd s' t,
      getCmd directory (rest ++ " ") s = (Return (Some cmd), s', t)
      /\ last (exec.Args cmd) "x" = ""
      /\ 2 <= List.length (exec.Args cmd)).
Proof.
  split.
  - destruct (getCmd_cases directory (String " "%char rest) s)
      as (w & ws & cmd & s' & t & Hw & Hg & Hpath & _); [discriminate|].
    cbn in Hw. injection Hw as <- _.
    exists cmd, s', t. split; [exact Hg|]. rewrite Hpath. reflexivity.
  - assert (Hne : rest ++ " " <> "") by (destruct rest; discriminate).
    destruct (getCmd_cases directory (rest ++ " ") s Hne)
      as (w & ws & cmd & s' & t & Hw & Hg & _ & Hargs & _).
    exists cmd, s', t. split; [exact Hg|]. rewrite Hargs, <- Hw.
    clear. induction rest as [|c rest [IH1 IH2]]; [split; cbn; [reflexivity|lia]|].
    cbn [String.append strings.Split].
    destruct (Split_nonempty (rest ++ " ") " "%char) as (w & ws & Hw).
    rewrite Hw in *.
    destruct (Ascii.eqb c " "%char).
    + split; [exact IH1 | cbn in *; lia].
    + split; [|exact IH2].
      destruct ws as [|w2 ws]; [cbn in IH2; lia | exact IH1].
Qed.

(** X18: [redirectCommandIO] cannot be applied twice: on the command it
    has set up it returns the error of [StdoutPipe] and changes nothing; so
    it does on every command whose output is already set, such as the one
    the handler builds. *)
Theorem redirectCommandIO_once (cmd : exec.Cmd) (s : State) :
  (forall f,
      exec.Stdout cmd = Some f ->
      redirectCommandIO cmd s
      = (Return (cmd, (None, Some "exec: Stdout already set")), s, []))
  /\ (forall cmd' s' t,
      redirectCommandIO cmd s = (Return (cmd', (None, None)), s', t) ->
      redirectCommandIO cmd' s'
      = (Return (cmd', (None, Some "exec: Stdout already set")), s', [])).
Proof.
  assert (Hset : forall c st f,
             exec.Stdout c = Some f ->
             redirectCommandIO c st
             = (Return (c, (None, Some "exec: Stdout already set")), st, [])).
  { intros c st f Hf.
    unfold redirectCommandIO, StdoutPipe, bind, ret, return_. now rewrite Hf. }
  split; [exact (Hset cmd s)|].
  intros cmd' s' t H.
  unfold redirectCommandIO, StdoutPipe, StderrPipe, osPipe, bind, ret, emit,
    return_ in H.
  destruct (exec.Stdout cmd) as [f|] eqn:Hout; [discriminate H|].
  destruct (exec.Pipe (pipes s)) as [e1|]; [discriminate H|].
  cbn in H.
  destruct (exec.Stderr cmd) as [f|]; [discriminate H|].
  cbn in H.
  destruct (exec.Pipe (S (pipes s))) as [e2|]; [discriminate H|].
  cbn in H. injection H as <- <- _.
  eapply Hset. reflexivity.
Qed.

End ProcessMore.

(** ** More concrete runs *)

Module MoreRuns.

Import Sample.

Lemma malformed_route_witness :
  @route.NewFromRequest routes (stripRtfSuffix (Vars_path tabbedRequest))
  = Err "malformed route"
  /\ serve (RP := routes) (TP := provider) (FS := files) (OS := system)
       (HC := collaborators) disabled tabbedRequest start
     = serve (RP := routes) (TP := provider) (FS := files) (OS := system)
         (HC := collaborators) enabled tabbedRequest start
  /\ existsb is404
       (snd (serve (RP := routes) (TP := provider) (FS := files) (OS := system)
               (HC := collaborators) enabled tabbedRequest start)) = false.
Proof.
  split; [reflexivity|].
  destruct (malformed_route_aborts (RP := routes) (TP := provider) (FS := files)
              (OS := system) (HC := collaborators)
              enabled disabled tabbedRequest "malformed route" start eq_refl)
    as (_ & Hsame & H404 & _).
  exact (conj Hsame H404).
Defined.

Lemma files_closed_witness :
  exists body,
    snd (serve (RP := routes) (TP := provider) (FS := files) (OS := system)
           (HC := collaborators) enabled introRequest start)
    = (body
       ++ [FileClose "/tmp/rtf-target-x.rtf"; FileClose "/tmp/html-source-.html";
           BodyClose])%list
    /\ existsb isClose body = false.
Proof.
  destruct (files_closed_on_every_path (RP := routes) (TP := provider)
              (FS := files) (OS := system) (HC := collaborators)
              enabled introRequest "docs/guide/intro" start eq_refl)
    as (body & Htrace & Hbody).
  exists body. split; [|exact Hbody].
  rewrite Htrace. f_equal.
  assert (Hopened : openedFiles (FS := files) body
                    = ["/tmp/html-source-.html"; "/tmp/rtf-target-x.rtf"]).
  { assert (Hb : body = filter (fun ev => negb (isClose ev))
                          (snd (serve (RP := routes) (TP := provider) (FS := files)
                                  (OS := system) (HC := collaborators)
                                  enabled introRequest start))).
    { rewrite Htrace. rewrite !filter_app.
      assert (Hkeep : forall l, existsb isClose l = false ->
                                filter (fun ev => negb (isClose ev)) l = l).
      { induction l as [|x l IH]; [reflexivity|]. cbn. intros H.
        apply orb_false_iff in H. destruct H as [Hx Hl].
        now rewrite Hx, (IH Hl). }
      rewrite (Hkeep body Hbody).
      assert (Hdrop : forall l : list string,
                 filter (fun ev => negb (isClose ev)) (map FileClose l) = []).
      { induction l as [|x l IH]; [reflexivity | exact IH]. }
      rewrite Hdrop. cbn. now rewrite app_nil_r. }
    rewrite Hb. reflexivity. }
  rewrite Hopened. reflexivity.
Defined.

Lemma successful_conversion_witness :
  exists html log,
    snd (serve (RP := routes) (TP := provider) (FS := files) (OS := system)
           (HC := collaborators) enabled introRequest start)
    = (headerEvents 0 ++ log
       ++ [TempFileName "html-source"; FileOpen "/tmp/html-source-.html";
           FileWriteString "/tmp/html-source-.html" html;
           TempFileName "rtf-target";
           CmdStart (converterCommand (FS := files) (OS := system) enabled start);
           CmdWait (converterCommand (FS := files) (OS := system) enabled start);
           FileOpen "/tmp/rtf-target-x.rtf";
           HeaderAdd "Content-Disposition"
             ("attachment; filename=" ++ dquote ++ "intro.rtf" ++ dquote);
           CopyToResponse "/tmp/rtf-target-x.rtf";
           FileClose "/tmp/rtf-target-x.rtf"; FileClose "/tmp/html-source-.html";
           BodyClose])%list.
Proof.
  destruct (successful_conversion (RP := routes) (TP := provider) (FS := files)
              (OS := system) (HC := collaborators)
              enabled introRequest "docs/guide/intro" intro start)
    as (html & log & _ & Hrun);
    try reflexivity; [discriminate|].
  exists html, log. rewrite Hrun. reflexivity.
Defined.

Lemma missing_template_witness :
  exists post,
    snd (serve (RP := routes) (TP := provider) (FS := files) (OS := system)
           (HC := collaborators) enabled nohostRequest start)
    = (headerEvents 0
       ++ [LogError "No template for item of type %q." ["document"];
           TempFileName "html-source"; FileOpen "/tmp/html-source-.html";
           FileWriteString "/tmp/html-source-.html" "";
           TempFileName "rtf-target";
           CmdStart (converterCommand (FS := files) (OS := system) enabled start)]
       ++ post)%list.
Proof.
  apply (missing_template_still_converts (RP := routes) (TP := provider)
           (FS := files) (OS := system) (HC := collaborators)
           enabled nohostRequest "docs/guide/intro" intro "template not found" start);
    try reflexivity.
  discriminate.
Defined.

Lemma not_found_excludes_conversion_witness :
  existsb is404
    (snd (serve (RP := routes) (TP := provider) (FS := files) (OS := system)
            (HC := collaborators) enabled otherRequest start)) = true
  /\ existsb touchesTempFile
       (snd (serve (RP := routes) (TP := provider) (FS := files) (OS := system)
               (HC := collaborators) enabled otherRequest start)) = false
  /\ existsb isLogError
       (snd (serve (RP := routes) (TP := provider) (FS := files) (OS := system)
               (HC := collaborators) enabled otherRequest start)) = false.
Proof.
  split; [reflexivity|].
  destruct (not_found_excludes_conversion (RP := routes) (TP := provider)
              (FS := files) (OS := system) (HC := collaborators)
              enabled otherRequest start eq_refl)
    as (_ & Htmp & _ & Hlog & _).
  exact (conj Htmp Hlog).
Defined.

Lemma warning_witness :
  existsb isLogWarn
    (snd (serve (RP := routes) (TP := provider) (FS := files) (OS := system)
            (HC := collaborators) unconfigured introRequest start)) = true
  /\ existsb isLogWarn
       (snd (serve (RP := routes) (TP := provider) (FS := files) (OS := system)
               (HC := collaborators) enabled otherRequest start)) = false.
Proof.
  split.
  - apply (proj1 (warning_iff_policy_gate (RP := routes) (TP := provider)
                    (FS := files) (OS := system) (HC := collaborators)
                    unconfigured introRequest "docs/guide/intro" start eq_refl)).
    right. reflexivity.
  - apply (proj2 (warning_iff_policy_gate (RP := routes) (TP := provider)
                    (FS := files) (OS := system) (HC := collaborators)
                    enabled otherRequest "docs/guide/other" start eq_refl));
      [reflexivity | reflexivity | discriminate].
Defined.

Lemma getRichTextFilename_inputs_witness :
  getRichTextFilename (RP := routes) intro
  = getRichTextFilename (RP := routes)
      {| viewmodel.Route := "docs/guide/intro"; viewmodel.Title := "Another title";
         viewmodel.Level := 3; viewmodel.Type_ := "presentation" |}.
Proof.
  apply (proj1 (getRichTextFilename_inputs (RP := routes) intro _));
    [reflexivity | discriminate | discriminate].
Defined.

Lemma getCmd_drops_pipe_errors_witness :
  getCmd (OS := noPipes) "/srv" "ls -l" start
  = (Return (Some {| exec.Path := "/usr/bin/ls"; exec.Args := ["ls"; "-l"];
                     exec.Dir := "/srv"; exec.Stdin := None;
                     exec.Stdout := None; exec.Stderr := None;
                     exec.lookPathErr := None |}),
     start, [])
  /\ getCmd (OS := onePipe) "/srv" "ls -l" start
     = (Return (Some {| exec.Path := "/usr/bin/ls"; exec.Args := ["ls"; "-l"];
                        exec.Dir := "/srv"; exec.Stdin := None;
                        exec.Stdout := Some (os.PipeWriter 0);
                        exec.Stderr := None;
                        exec.lookPathErr := None |}),
        {| tempFiles := 0; pipes := 1; deferred := [] |}, [OsPipe 0]).
Proof.
  split.
  - destruct (getCmd_drops_pipe_errors (OS := noPipes) "/srv" "ls -l" start)
      as (n & a & Hw & H1 & _); [discriminate|].
    cbn in Hw. injection Hw as <- <-.
    exact (H1 "pipe: too many open files" eq_refl).
  - destruct (getCmd_drops_pipe_errors (OS := onePipe) "/srv" "ls -l" start)
      as (n & a & Hw & _ & H2); [discriminate|].
    cbn in Hw. injection Hw as <- <-.
    exact (H2 "pipe: too many open files" eq_refl eq_refl).
Defined.

Lemma execute_result_witness :
  fst (fst (execute (OS := system) "/srv" "ls -l" start)) = Return None.
Proof.
  destruct (execute_result (OS := system) "/srv" "ls -l" start)
    as (cmd & s' & setup & _ & Hrun); [discriminate|].
  rewrite Hrun. reflexivity.
Defined.

Lemma getCmd_argument_count_witness :
  exists cmd s' t,
    getCmd (OS := system) "/srv" "ls -l  /tmp" start = (Return (Some cmd), s', t)
    /\ List.length (exec.Args cmd) = 4.
Proof.
  destruct (getCmd_argument_count (OS := system) "/srv" "ls -l  /tmp" start)
    as (cmd & s' & t & Hg & Hlen & _); [discriminate|].
  exists cmd, s', t. split; [exact Hg|]. rewrite Hlen. reflexivity.
Defined.

Lemma getCmd_of_joined_words_witness :
  exists cmd s' t,
    getCmd (OS := system) "/srv" "pandoc -s in.html" start
    = (Return (Some cmd), s', t)
    /\ exec.Args cmd = ["pandoc"; "-s"; "in.html"]
    /\ exec.Path cmd = "/usr/bin/pandoc".
Proof.
  destruct (getCmd_of_joined_words (OS := system) "/srv" "pandoc"
              ["-s"; "in.html"] start)
    as (cmd & s' & t & Hg & Hargs & _ & Hfound & _).
  - repeat constructor.
  - discriminate.
  - exists cmd, s', t. split; [exact Hg|]. split; [exact Hargs|].
    exact (Hfound "/usr/bin/pandoc" eq_refl eq_refl).
Defined.

Lemma redirectCommandIO_once_witness :
  redirectCommandIO (OS := system) (converterCommand (FS := files) (OS := system) enabled start) start
  = (Return (converterCommand (FS := files) (OS := system) enabled start,
             (None, Some "exec: Stdout already set")), start, []).
Proof.
  exact (proj1 (redirectCommandIO_once (OS := system)
                  (converterCommand (FS := files) (OS := system) enabled start) start)
           os.Stdout eq_refl).
Defined.

End MoreRuns.
